(** * A shallow embedding of the Stripe service adapter

    The development follows [src/stripeService.ts], [src/utils/errors.ts],
    [src/utils/customError.ts] and [src/types/stripe-types.ts].

    - JavaScript objects whose set of properties is open (the object behind
      [event.data.object], a line item, the rest element of a destructuring
      pattern) are finite maps from property names to values.
    - Interfaces with a fixed set of fields are records; a field that may
      be missing at run time is an [option] ([None] is [undefined]).
    - The payment processor, the signature check and the UUID generator are
      not part of the repository: they are the methods of the class
      [Processor], and every theorem holds for all its instances.
    - [async] methods are sequential computations in a monad with the
      service instance, the outside world and the trace of observable
      effects as state, and with exceptions. *)

From stdpp Require Import base option list strings gmap fin_maps.

Open Scope string_scope.
Open Scope Z_scope.
Open Scope list_scope.

(** ** Values *)

(** The numbers the development talks about: the integers and [NaN].
    Other doubles do not occur in the statements below. *)
Inductive number :=
| NaN
| Num (z : Z).

#[local] Set Warnings "-register-all".
Inductive value :=
| VUndefined
| VNull
| VBoolean (b : bool)
| VNumber (n : number)
| VString (s : string)
| VArray (items : list value)
| VObject (props : gmap string value).

(** [obj.p]: reading a property that is absent yields [undefined]. *)
Definition get (obj : gmap string value) (p : string) : value :=
  default VUndefined (obj !! p).

(** [{...target, ...source}]: properties of [source] win. *)
Definition spread (target source : gmap string value) : gmap string value :=
  source ∪ target.

(** A variable of static type [T] that may hold [undefined], used where
    JavaScript expects a value. *)
Definition of_number (o : option number) : value :=
  from_option VNumber VUndefined o.

Definition of_string (o : option string) : value :=
  from_option VString VUndefined o.

(** [ToBoolean] on numbers and on strings: [0], [NaN] and the empty string
    are falsy, and so is [undefined]. *)
Definition truthy_number (n : number) : bool :=
  match n with
  | NaN => false
  | Num z => negb (z =? 0)
  end.

Definition truthy_string (s : string) : bool :=
  negb (String.eqb s "").

Definition truthy {A} (t : A -> bool) (o : option A) : bool :=
  from_option t false o.

(** [`${s}`] for a variable of type string: [undefined] prints as such. *)
Definition template_string (o : option string) : string :=
  default "undefined" o.

(** [String.prototype.includes]. *)
Fixpoint includes (needle s : string) : bool :=
  String.prefix needle s ||
  match s with
  | EmptyString => false
  | String _ rest => includes needle rest
  end.

(** ** The error taxonomy ([customError.ts], [errors.ts]) *)

Record CustomError := {
  name : string;
  message : string;
  code : Z;
}.

(** [constructor(message, code = 500)]; [this.constructor.name] is the name
    of the class being instantiated. *)
Definition CustomError_constructor
    (constructor_name : string) (message : string) (code : option Z)
    : CustomError :=
  {| name := constructor_name; message := message; code := default 500 code |}.

Definition set_name (n : string) (e : CustomError) : CustomError :=
  {| name := n; message := message e; code := code e |}.

Definition StripeInitializationError (message : string) : CustomError :=
  set_name "StripeInitializationError"
    (CustomError_constructor "StripeInitializationError" message (Some 400)).

Definition MissingRequiredParameterError (message : string) : CustomError :=
  set_name "MissingRequiredParameterError"
    (CustomError_constructor "MissingRequiredParameterError" message (Some 422)).

Definition CheckoutSessionCreationError (message : string) : CustomError :=
  set_name "CheckoutSessionCreationError"
    (CustomError_constructor "CheckoutSessionCreationError" message (Some 400)).

Definition SessionRetrievalError (message : string) : CustomError :=
  set_name "SessionRetrievalError"
    (CustomError_constructor "SessionRetrievalError" message (Some 400)).

Definition WebhookSignatureVerificationError (message : string) : CustomError :=
  set_name "WebhookSignatureVerificationError"
    (CustomError_constructor "WebhookSignatureVerificationError" message (Some 400)).

Definition WebhookProcessingError (message : string) : CustomError :=
  set_name "WebhookProcessingError"
    (CustomError_constructor "WebhookProcessingError" message (Some 400)).

(** The six classes exported by [errors.ts]. *)
Inductive ErrorClass :=
| InitError
| MissingParam
| SessionCreateError
| SessionRetrieveError
| SignatureError
| ProcessingError.

Definition construct (k : ErrorClass) : string -> CustomError :=
  match k with
  | InitError => StripeInitializationError
  | MissingParam => MissingRequiredParameterError
  | SessionCreateError => CheckoutSessionCreationError
  | SessionRetrieveError => SessionRetrievalError
  | SignatureError => WebhookSignatureVerificationError
  | ProcessingError => WebhookProcessingError
  end.

(** What a [catch] clause can receive: an error of this repository, or an
    error object raised by the processor's SDK or the runtime. *)
Inductive Thrown :=
| Custom (e : CustomError)
| Foreign (ename emessage : string).

(** [Error.prototype.toString], as used by [`${err}`]. *)
Definition Error_toString (t : Thrown) : string :=
  let '(n, m) :=
    match t with
    | Custom e => (name e, message e)
    | Foreign n m => (n, m)
    end in
  if String.eqb n "" then m
  else if String.eqb m "" then n
  else n +:+ ": " +:+ m.

(** ** Data exchanged with the processor ([stripe-types.ts]) *)

Record CreateCheckoutSessionInput := {
  amount : option number;
  currency : option string;
  successUrl : option string;
  cancelUrl : option string;
  (** the own properties of the object besides the four declared ones *)
  extra : gmap string value;
}.

Record GetCheckoutSessionInput := {
  sessionId : option string;
}.

Record CheckoutSessionResult := {
  result_url : option string;
  result_sessionId : string;
}.

(** [Stripe.Checkout.Session]: the identifier, the redirect URL (declared
    [string | null]) and the remaining properties. *)
Record Session := {
  session_id : string;
  session_url : option string;
  session_props : gmap string value;
}.

(** The argument of [stripe.checkout.sessions.create]. *)
Record SessionCreateParams := {
  payment_method_types : list string;
  line_items : list (gmap string value);
  mode : string;
  success_url : string;
  cancel_url : option string;
  client_reference_id : string;
}.

(** [v.p] on an arbitrary value: on [undefined] and [null] the read raises
    a [TypeError] (with the message of V8); on an object it is [get]; a
    primitive or an array has none of the properties read in this file
    (no index, no [length], no method of a prototype is ever read). *)
Definition TypeError_reading (what p : string) : Thrown :=
  Foreign "TypeError"
    ("Cannot read properties of " +:+ what +:+ " (reading '" +:+ p +:+ "')").

Definition member (v : value) (p : string) : Thrown + value :=
  match v with
  | VUndefined => inl (TypeError_reading "undefined" p)
  | VNull => inl (TypeError_reading "null" p)
  | VObject props => inr (get props p)
  | VBoolean _ | VNumber _ | VString _ | VArray _ => inr VUndefined
  end.

Definition nullish (v : value) : bool :=
  match v with
  | VUndefined | VNull => true
  | _ => false
  end.

(** The event that [constructEvent] parses out of the payload. The
    envelope is as [Stripe.EventBase] declares it; [data] is whatever the
    payload held there, [undefined] when it held nothing. *)
Record StripeWebhookEvent := {
  event_id : string;
  event_type : string;
  event_created : Z;
  event_livemode : bool;
  event_data : value;
}.

(** [event.data.object] *)
Definition event_data_object (event : StripeWebhookEvent) : Thrown + value :=
  member (event_data event) "object".

(** The event has a [data.object] whose properties can be read: [data] is
    neither [undefined] nor [null], and neither is its [object]. *)
Definition has_data_object (event : StripeWebhookEvent) : bool :=
  match event_data_object event with
  | inl _ => false
  | inr object => negb (nullish object)
  end.

Inductive Payload :=
| PayloadString (s : string)
| PayloadBuffer (bytes : list Z).

(** The SDK client built by [new Stripe(key, config)]. *)
Record Stripe := {
  apiKey : string;
  apiVersion : string;
  maxNetworkRetries : Z;
}.

Record StripeService := {
  stripe : Stripe;
  webhookSecret : string;
}.

(** ** Observable effects *)

Inductive Effect :=
| console_log (label : string) (fields : list (string * value))
| console_error (label : string) (err : Thrown)
| call_uuidv4
| call_sessions_create (client : Stripe) (params : SessionCreateParams)
| call_sessions_retrieve (client : Stripe) (id : option string)
| call_constructEvent (client : Stripe) (payload : Payload)
    (signature secret : string).

Definition is_console_log (e : Effect) : bool :=
  match e with
  | console_log _ _ => true
  | _ => false
  end.

Definition is_processor_call (e : Effect) : bool :=
  match e with
  | call_sessions_create _ _ | call_sessions_retrieve _ _ => true
  | _ => false
  end.

(** ** The constructor of the service *)

Definition StripeService_constructor (stripeSecretKey webhookSecret : string)
    : Thrown + StripeService :=
  if negb (truthy_string stripeSecretKey) then
    inl (Custom (StripeInitializationError "Stripe secret key is required."))
  else if negb (truthy_string webhookSecret) then
    inl (Custom (StripeInitializationError "Stripe webhook secret is required."))
  else
    inr {| stripe := {| apiKey := stripeSecretKey;
                        apiVersion := "2025-01-27.acacia";
                        maxNetworkRetries := 3 |};
           webhookSecret := webhookSecret |}.

(** ** The service ([stripeService.ts]) *)

(** The world outside the process, and the three collaborators that read
    and change it. A call yields an answer and the next world, so two calls
    with equal arguments may differ; an [inl] answer is an exception. *)
Class Processor (World : Type) := {
  uuidv4 : World -> string * World;
  sessions_create :
    Stripe -> SessionCreateParams -> World -> (Thrown + Session) * World;
  sessions_retrieve :
    Stripe -> option string -> World -> (Thrown + Session) * World;
  constructEvent :
    Stripe -> Payload -> string -> string -> World ->
    (Thrown + StripeWebhookEvent) * World;
}.

Record State (World : Type) := {
  this : StripeService;
  world : World;
  trace : list Effect;
}.
Arguments this {World} _.
Arguments world {World} _.
Arguments trace {World} _.

Inductive Outcome (A : Type) :=
| Return (a : A)
| Throw (e : Thrown).
Arguments Return {A} a.
Arguments Throw {A} e.

Definition M (World A : Type) : Type := State World -> Outcome A * State World.

#[global] Instance M_ret {World} : MRet (M World) :=
  fun A a st => (Return a, st).

#[global] Instance M_bind {World} : MBind (M World) := fun A B f m st =>
  match m st with
  | (Return a, st') => f a st'
  | (Throw e, st') => (Throw e, st')
  end.

Section Service.

Context {World : Type} {processor : Processor World}.
#[local] Abbreviation M := (M World).

Definition throw {A} (e : Thrown) : M A := fun st => (Throw e, st).

Definition try_catch {A} (body : M A) (handler : Thrown -> M A) : M A :=
  fun st =>
    match body st with
    | (Return a, st') => (Return a, st')
    | (Throw e, st') => handler e st'
    end.

Definition emit (e : Effect) : M () := fun st =>
  (Return (), {| this := this st; world := world st;
                 trace := trace st ++ [e] |}).

Definition this_stripe : M Stripe := fun st => (Return (stripe (this st)), st).

Definition this_webhookSecret : M string :=
  fun st => (Return (webhookSecret (this st)), st).

(** Asking a collaborator: the answer comes from the world, which moves
    on. *)
Definition ask {A} (f : World -> (Thrown + A) * World) : M A := fun st =>
  let '(r, w) := f (world st) in
  let st' := {| this := this st; world := w; trace := trace st |} in
  match r with
  | inl e => (Throw e, st')
  | inr a => (Return a, st')
  end.

Definition call_uuid : M string :=
  emit call_uuidv4;;
  ask (fun w => let '(u, w') := uuidv4 w in (inr u, w')).

Definition stripe_checkout_sessions_create (params : SessionCreateParams)
    : M Session :=
  client ← this_stripe;
  emit (call_sessions_create client params);;
  ask (sessions_create client params).

Definition stripe_checkout_sessions_retrieve (id : option string) : M Session :=
  client ← this_stripe;
  emit (call_sessions_retrieve client id);;
  ask (sessions_retrieve client id).

Definition stripe_webhooks_constructEvent
    (payload : Payload) (signature secret : string) : M StripeWebhookEvent :=
  client ← this_stripe;
  emit (call_constructEvent client payload signature secret);;
  ask (constructEvent client payload signature secret).

(** *** createCheckoutSession *)

(** [const { amount, currency, successUrl, cancelUrl, ...otherLineItemData }
    = input]: the rest element never holds one of the four names. *)
Definition otherLineItemData (input : CreateCheckoutSessionInput)
    : gmap string value :=
  delete "amount" (delete "currency"
    (delete "successUrl" (delete "cancelUrl" (extra input)))).

Definition price_data (input : CreateCheckoutSessionInput) : value :=
  VObject
    (<["currency" := of_string (currency input)]>
     (<["product_data" := VObject {["name" := VString "Your Product Name"]}]>
      {["unit_amount" := of_number (amount input)]})).

Definition line_item (input : CreateCheckoutSessionInput)
    : gmap string value :=
  spread
    (<["price_data" := price_data input]>
     {["quantity" := VNumber (Num 1)]})
    (otherLineItemData input).

Definition session_params (input : CreateCheckoutSessionInput)
    (reference : string) : SessionCreateParams :=
  {| payment_method_types := ["card"];
     line_items := [line_item input];
     mode := "payment";
     success_url :=
       template_string (successUrl input)
         +:+ "?session_id={CHECKOUT_SESSION_ID}";
     cancel_url := cancelUrl input;
     client_reference_id := reference |}.

(** [!amount || !currency || !successUrl || !cancelUrl] *)
Definition missing_required (input : CreateCheckoutSessionInput) : bool :=
  negb (truthy truthy_number (amount input))
  || negb (truthy truthy_string (currency input))
  || negb (truthy truthy_string (successUrl input))
  || negb (truthy truthy_string (cancelUrl input)).

Definition createCheckoutSession (input : CreateCheckoutSessionInput)
    : M CheckoutSessionResult :=
  try_catch
    (if missing_required input
     then
       throw (Custom (MissingRequiredParameterError
         "Amount, currency, successUrl, and cancelUrl are required."))
     else
       reference ← call_uuid;
       session ← stripe_checkout_sessions_create
                   (session_params input reference);
       (* session.url! : the assertion is erased at run time *)
       mret {| result_url := session_url session;
               result_sessionId := session_id session |})
    (fun error =>
       emit (console_error "Error creating checkout session:" error);;
       throw (Custom (CheckoutSessionCreationError
         "Failed to create checkout session."))).

(** *** getCheckoutSession *)

Definition getCheckoutSession (input : GetCheckoutSessionInput) : M Session :=
  try_catch
    (if negb (truthy truthy_string (sessionId input)) then
       throw (Custom (MissingRequiredParameterError "Session ID is required."))
     else
       session ← stripe_checkout_sessions_retrieve (sessionId input);
       mret session)
    (fun error =>
       emit (console_error "Error retrieving session:" error);;
       throw (Custom (SessionRetrievalError "Failed to retrieve session."))).

(** *** The event handlers *)

(** A property read inside a computation: a [TypeError] is an exception. *)
Definition read (v : value) (p : string) : M value := fun st =>
  match member v p with
  | inl e => (Throw e, st)
  | inr x => (Return x, st)
  end.

Definition handlePaymentIntentCreated (event : StripeWebhookEvent)
    : M StripeWebhookEvent :=
  paymentIntent ← read (event_data event) "object";
  id ← read paymentIntent "id";
  amount ← read paymentIntent "amount";
  currency ← read paymentIntent "currency";
  created_at ← read paymentIntent "created";
  emit (console_log "Payment Intent Created:"
    [("id", id); ("amount", amount); ("currency", currency);
     ("created_at", created_at)]);;
  mret event.

Definition handlePaymentIntentSucceeded (event : StripeWebhookEvent)
    : M StripeWebhookEvent :=
  paymentIntent ← read (event_data event) "object";
  id ← read paymentIntent "id";
  amount ← read paymentIntent "amount";
  currency ← read paymentIntent "currency";
  status ← read paymentIntent "status";
  receipt_email ← read paymentIntent "receipt_email";
  emit (console_log "Payment Intent Succeeded:"
    [("id", id); ("amount", amount); ("currency", currency);
     ("status", status); ("receipt_email", receipt_email)]);;
  mret event.

Definition handleChargeUpdated (event : StripeWebhookEvent)
    : M StripeWebhookEvent :=
  charge ← read (event_data event) "object";
  id ← read charge "id";
  amount ← read charge "amount";
  paid ← read charge "paid";
  status ← read charge "status";
  emit (console_log "Charge Updated:"
    [("id", id); ("amount", amount); ("paid", paid); ("status", status)]);;
  mret event.

Definition handleChargeSucceeded (event : StripeWebhookEvent)
    : M StripeWebhookEvent :=
  charge ← read (event_data event) "object";
  id ← read charge "id";
  amount ← read charge "amount";
  payment_method ← read charge "payment_method";
  status ← read charge "status";
  emit (console_log "Charge Succeeded:"
    [("id", id); ("amount", amount); ("payment_method", payment_method);
     ("status", status)]);;
  mret event.

Definition handleCheckoutSessionCompleted (event : StripeWebhookEvent)
    : M StripeWebhookEvent :=
  session ← read (event_data event) "object";
  id ← read session "id";
  customer ← read session "customer";
  payment_status ← read session "payment_status";
  amount_total ← read session "amount_total";
  currency ← read session "currency";
  session_url ← read session "url";
  client_reference_id ← read session "client_reference_id";
  emit (console_log "Checkout Session Completed:"
    [("id", id); ("customer", customer);
     ("payment_status", payment_status); ("amount_total", amount_total);
     ("currency", currency); ("session_url", session_url);
     ("client_reference_id", client_reference_id)]);;
  mret event.

(** *** processWebhookEvent and handleWebhook *)

(** The [switch] on [event.type]. The first case returns only under an
    [if] and would otherwise fall through to the second. *)
Definition processWebhookEvent (event : StripeWebhookEvent)
    : M (option StripeWebhookEvent) :=
  if String.eqb (event_type event) "payment_intent.created" then
    if String.eqb (event_type event) "payment_intent.created" then
      e ← handlePaymentIntentCreated event; mret (Some e)
    else
      e ← handlePaymentIntentSucceeded event; mret (Some e)
  else if String.eqb (event_type event) "payment_intent.succeeded" then
    e ← handlePaymentIntentSucceeded event; mret (Some e)
  else if String.eqb (event_type event) "charge.updated" then
    e ← handleChargeUpdated event; mret (Some e)
  else if String.eqb (event_type event) "charge.succeeded" then
    e ← handleChargeSucceeded event; mret (Some e)
  else if String.eqb (event_type event) "checkout.session.completed" then
    e ← handleCheckoutSessionCompleted event; mret (Some e)
  else
    emit (console_log ("Unhandled event type: " +:+ event_type event) []);;
    mret None.

Definition handleWebhook (payload : Payload) (signature : string)
    : M (option StripeWebhookEvent) :=
  event ← try_catch
    (secret ← this_webhookSecret;
     stripe_webhooks_constructEvent payload signature secret)
    (fun err =>
       emit (console_error "Webhook signature verification failed:" err);;
       throw (Custom (WebhookSignatureVerificationError
         ("Webhook signature verification failed: " +:+ Error_toString err))));
  try_catch
    (processedEvent ← processWebhookEvent event;
     mret processedEvent)
    (fun error =>
       emit (console_error "Webhook processing error:" error);;
       throw (Custom (WebhookProcessingError
         ("Webhook processing error: " +:+ Error_toString error)))).

End Service.

(** ** Stand-ins for the collaborators

    Concrete processors on which the statements below are run. The world is
    the number of calls answered so far. *)

Definition test_session : Session :=
  {| session_id := "cs_test_a1";
     session_url := Some "https://checkout.stripe.com/c/pay/cs_test_a1";
     session_props := {["payment_status" := VString "unpaid"]} |}.

(** A payload stands for the event whose type tag it spells; the only
    signature that verifies is ["t=1,v1=good"]. *)
Definition test_event (payload : Payload) : StripeWebhookEvent :=
  {| event_id := "evt_1";
     event_type := match payload with
                   | PayloadString s => s
                   | PayloadBuffer _ => "ping"
                   end;
     event_created := 1700000000;
     event_livemode := false;
     event_data :=
       VObject {["object" :=
                   VObject (<["id" := VString "pi_1"]>
                            {["amount" := VNumber (Num 500)]})]} |}.

Definition test_processor : Processor nat :=
  {| uuidv4 := fun w => ("9b2e4c1a-7d3f-4e5a-8b6c-0123456789ab", S w);
     sessions_create := fun _ _ w => (inr test_session, S w);
     sessions_retrieve := fun _ id w =>
       (if bool_decide (id = Some "cs_test_a1") then inr test_session
        else inl (Foreign "StripeInvalidRequestError" "No such checkout.session"),
        S w);
     constructEvent := fun _ payload signature _ w =>
       (if String.eqb signature "t=1,v1=good" then inr (test_event payload)
        else inl (Foreign "StripeSignatureVerificationError"
                    "No signatures found matching the expected signature for payload."),
        w) |}.

Definition test_service : StripeService :=
  {| stripe := {| apiKey := "sk_test_1"; apiVersion := "2025-01-27.acacia";
                  maxNetworkRetries := 3 |};
     webhookSecret := "whsec_1" |}.

Definition test_state : State nat :=
  {| this := test_service; world := 0%nat; trace := [] |}.

Definition test_input : CreateCheckoutSessionInput :=
  {| amount := Some (Num 500);
     currency := Some "usd";
     successUrl := Some "https://x/ok";
     cancelUrl := Some "https://x/cancel";
     extra := ∅ |}.

(** An input whose extra properties name [quantity]. *)
Definition bulk_input : CreateCheckoutSessionInput :=
  {| amount := Some (Num 500);
     currency := Some "usd";
     successUrl := Some "https://x/ok";
     cancelUrl := Some "https://x/cancel";
     extra := {["quantity" := VNumber (Num 5)]} |}.

(** An input with a negative amount whose extra properties name
    [price_data]. *)
Definition priced_input : CreateCheckoutSessionInput :=
  {| amount := Some (Num (-500));
     currency := Some "usd";
     successUrl := Some "https://x/ok";
     cancelUrl := Some "https://x/cancel";
     extra := {["price_data" :=
                  VObject {["unit_amount" := VNumber (Num 1)]}]} |}.

(** An input with a negative amount and nothing else of note. *)
Definition refund_input : CreateCheckoutSessionInput :=
  {| amount := Some (Num (-500));
     currency := Some "usd";
     successUrl := Some "https://x/ok";
     cancelUrl := Some "https://x/cancel";
     extra := ∅ |}.

(** The five type tags that [processWebhookEvent] has a case for. *)
Definition recognized_types : list string :=
  ["payment_intent.created"; "payment_intent.succeeded"; "charge.updated";
   "charge.succeeded"; "checkout.session.completed"].

(** A computation that hands back the service instance it was given. *)
Definition preserves_this {World A} (m : M World A) : Prop :=
  ∀ st, this (m st).2 = this st.

(** The trace that a run adds to the one it started with. *)
Definition added {World} (before after : State World) : list Effect :=
  drop (length (trace before)) (trace after).

(** ** Reading a trace *)

Definition is_console_error (e : Effect) : bool :=
  match e with
  | console_error _ _ => true
  | _ => false
  end.

(** The entries that are calls to a collaborator, not console output. *)
Definition is_call (e : Effect) : bool :=
  match e with
  | console_log _ _ | console_error _ _ => false
  | _ => true
  end.

(** A processor that is unreachable: both session calls are rejected. *)
Definition failing_processor : Processor nat :=
  {| uuidv4 := fun w => ("9b2e4c1a-7d3f-4e5a-8b6c-0123456789ab", S w);
     sessions_create := fun _ _ w =>
       (inl (Foreign "StripeConnectionError"
               "An error occurred with our connection to Stripe."), S w);
     sessions_retrieve := fun _ _ w =>
       (inl (Foreign "StripeConnectionError"
               "An error occurred with our connection to Stripe."), S w);
     constructEvent := fun _ payload signature _ w =>
       (if String.eqb signature "t=1,v1=good" then inr (test_event payload)
        else inl (Foreign "StripeSignatureVerificationError"
                    "No signatures found matching the expected signature for payload."),
        w) |}.

(** An event that came without [data]. *)
Definition dataless_event (type : string) : StripeWebhookEvent :=
  {| event_id := "evt_3";
     event_type := type;
     event_created := 1700000002;
     event_livemode := false;
     event_data := VUndefined |}.

(** A processor whose verified events all lack [data]: a payload stands for
    the type tag it spells. *)
Definition dataless_processor : Processor nat :=
  {| uuidv4 := fun w => ("9b2e4c1a-7d3f-4e5a-8b6c-0123456789ab", S w);
     sessions_create := fun _ _ w => (inr test_session, S w);
     sessions_retrieve := fun _ _ w => (inr test_session, S w);
     constructEvent := fun _ payload signature _ w =>
       (if String.eqb signature "t=1,v1=good"
        then inr (dataless_event match payload with
                                 | PayloadString s => s
                                 | PayloadBuffer _ => "ping"
                                 end)
        else inl (Foreign "StripeSignatureVerificationError"
                    "No signatures found matching the expected signature for payload."),
        w) |}.

(** An event whose [data.object] has no property at all. *)
Definition bare_event (type : string) : StripeWebhookEvent :=
  {| event_id := "evt_2";
     event_type := type;
     event_created := 1700000001;
     event_livemode := false;
     event_data := VObject {["object" := VObject ∅]} |}.

(** * Properties *)

(** ** The error taxonomy *)

(** C8. Every error class carries a fixed status code: 422 for the
    missing-parameter class and 400 for the other five. Each constructor
    hands an explicit code to the base constructor, so the base default of
    500, which an omitted code would give, is never the code of an error. *)
Theorem error_codes_fixed (k : ErrorClass) (msg : string) :
  code (construct k msg) = (if k is MissingParam then 422 else 400)
  ∧ code (construct k msg) ≠ 500
  ∧ message (construct k msg) = msg
  ∧ (∃ n c, construct k msg
            = set_name n (CustomError_constructor n msg (Some c)))
  ∧ ∀ n, code (CustomError_constructor n msg None) = 500.
Proof.
  destruct k; cbn; repeat split; eauto; lia.
Qed.

Section Properties.

Context {World : Type} {processor : Processor World}.
Implicit Types (st : State World) (ev : StripeWebhookEvent).

Lemma added_app st st' (l : list Effect) :
  trace st' = trace st ++ l → added st st' = l.
Proof.
  unfold added. intros ->. apply drop_app_length.
Qed.

(** Traces grow at the right end, one entry at a time. *)
Ltac trace_eq := cbn; rewrite <- ?app_assoc; reflexivity.

(** ** Webhook handling *)

Lemma eqb_recognized (t : string) :
  t ∈ recognized_types ↔
  String.eqb t "payment_intent.created"
  || String.eqb t "payment_intent.succeeded"
  || String.eqb t "charge.updated"
  || String.eqb t "charge.succeeded"
  || String.eqb t "checkout.session.completed" = true.
Proof.
  unfold recognized_types.
  rewrite !elem_of_cons, elem_of_nil, !orb_true_iff, !String.eqb_eq.
  tauto.
Qed.

(** Reading a property: it fails on [undefined] and [null] only. *)
Lemma member_nullish (v : value) (p : string) :
  nullish v = true →
  member v p
  = inl (TypeError_reading (if v is VNull then "null" else "undefined") p).
Proof. destruct v; cbn; congruence. Qed.

Lemma member_readable (v : value) (p : string) :
  nullish v = false → ∃ x, member v p = inr x.
Proof. destruct v; cbn; intros [=]; eauto. Qed.

Lemma added_same st : added st st = [].
Proof. unfold added. apply drop_all. Qed.

(** An event without a case gets the line about its type, and [null]. *)
Lemma processWebhookEvent_unrecognized ev st :
  event_type ev ∉ recognized_types →
  processWebhookEvent ev st
  = (Return None,
     {| this := this st; world := world st;
        trace := trace st
                 ++ [console_log ("Unhandled event type: " +:+ event_type ev)
                       []] |}).
Proof.
  intros Hnot.
  rewrite eqb_recognized in Hnot. apply not_true_is_false in Hnot.
  rewrite !orb_false_iff in Hnot.
  destruct Hnot as [[[[E1 E2] E3] E4] E5].
  unfold processWebhookEvent. rewrite E1, E2, E3, E4, E5. reflexivity.
Qed.

(** An event with a case goes to the handler of its type. The handler
    reads [event.data.object] and then its [id] before anything else: if
    either read fails, that [TypeError] is the outcome and nothing was
    logged; otherwise the handler writes its one [console.log] line and
    returns the event. *)
Lemma processWebhookEvent_recognized ev st :
  event_type ev ∈ recognized_types →
  match event_data_object ev with
  | inl error => processWebhookEvent ev st = (Throw error, st)
  | inr object =>
      match member object "id" with
      | inl error => processWebhookEvent ev st = (Throw error, st)
      | inr _ =>
          ∃ label fields,
            processWebhookEvent ev st
            = (Return (Some ev),
               {| this := this st; world := world st;
                  trace := trace st ++ [console_log label fields] |})
            ∧ (event_type ev, label)
              ∈ [("payment_intent.created", "Payment Intent Created:");
                 ("payment_intent.succeeded", "Payment Intent Succeeded:");
                 ("charge.updated", "Charge Updated:");
                 ("charge.succeeded", "Charge Succeeded:");
                 ("checkout.session.completed",
                  "Checkout Session Completed:")]
      end
  end.
Proof.
  intros Hin. rewrite eqb_recognized in Hin.
  unfold processWebhookEvent, event_data_object.
  repeat match goal with
         | |- context [if String.eqb ?a ?b then _ else _] =>
             destruct (String.eqb a b) eqn:?;
             [ match goal with
               | E : String.eqb _ _ = true |- _ =>
                   apply String.eqb_eq in E; rewrite E
               end;
               unfold handlePaymentIntentCreated,
                 handlePaymentIntentSucceeded, handleChargeUpdated,
                 handleChargeSucceeded, handleCheckoutSessionCompleted,
                 read, emit, mbind, M_bind;
               destruct (member (event_data ev) "object") as [error|object];
               [ reflexivity |];
               destruct object; cbn;
               first [ reflexivity
                     | do 2 eexists; split; [reflexivity |];
                       rewrite !elem_of_cons; auto 10 ]
             | ]
         end.
  discriminate Hin.
Qed.

Lemma has_data_object_true ev :
  has_data_object ev = true →
  ∃ object x, event_data_object ev = inr object
              ∧ member object "id" = inr x.
Proof.
  unfold has_data_object.
  destruct (event_data_object ev) as [error|object]; [discriminate |].
  intros Hobj. apply negb_true_iff in Hobj.
  destruct (member_readable object "id" Hobj) as [x Hx]. eauto.
Qed.

Lemma has_data_object_false ev :
  has_data_object ev = false →
  ∃ what p,
    event_data_object ev = inl (TypeError_reading what p)
    ∨ ∃ object, event_data_object ev = inr object
                ∧ member object "id" = inl (TypeError_reading what p).
Proof.
  unfold has_data_object.
  destruct (event_data_object ev) as [error|object] eqn:Eobj.
  - intros _. unfold event_data_object in Eobj.
    destruct (event_data ev); cbn in Eobj; try discriminate Eobj;
      injection Eobj as <-; eauto.
  - intros Hobj. apply negb_false_iff in Hobj.
    do 2 eexists. right. exists object. split; [reflexivity |].
    apply member_nullish, Hobj.
Qed.

(** C1. When the processor's signature check fails, [handleWebhook] throws
    a [WebhookSignatureVerificationError] (code 400) built from the failure;
    no event is returned, and the run adds to the trace only the call of
    the check and one [console.error] line, the one of the verification:
    no handler has logged and no processing error was reported, so the
    dispatch phase was not entered. *)
Theorem handleWebhook_bad_signature payload signature st err w' :
  constructEvent (stripe (this st)) payload signature
    (webhookSecret (this st)) (world st) = (inl err, w') →
  ∃ e st',
    handleWebhook payload signature st = (Throw (Custom e), st')
    ∧ e = WebhookSignatureVerificationError
            ("Webhook signature verification failed: " +:+ Error_toString err)
    ∧ name e = "WebhookSignatureVerificationError"
    ∧ code e = 400
    ∧ trace st'
      = trace st
        ++ [call_constructEvent (stripe (this st)) payload signature
              (webhookSecret (this st));
            console_error "Webhook signature verification failed:" err]
    ∧ List.filter is_console_log (added st st') = [].
Proof.
  intros Hverify.
  do 2 eexists. split.
  - unfold handleWebhook, try_catch, stripe_webhooks_constructEvent,
      this_webhookSecret, this_stripe, emit, ask, throw, mbind, M_bind.
    cbn. rewrite Hverify. cbn. reflexivity.
  - do 3 (split; [reflexivity |]).
    split; [trace_eq |].
    erewrite added_app; [| trace_eq]. reflexivity.
Qed.

(** After a successful check, the call is the dispatch of the verified
    event in the state the check left: what the dispatch returns is
    returned, and what it throws is reported and wrapped. *)
Lemma handleWebhook_verified payload signature st ev w' :
  constructEvent (stripe (this st)) payload signature
    (webhookSecret (this st)) (world st) = (inr ev, w') →
  handleWebhook payload signature st
  = match processWebhookEvent ev
            {| this := this st; world := w';
               trace := trace st
                        ++ [call_constructEvent (stripe (this st)) payload
                              signature (webhookSecret (this st))] |} with
    | (Return r, st2) => (Return r, st2)
    | (Throw error, st2) =>
        (Throw (Custom (WebhookProcessingError
           ("Webhook processing error: " +:+ Error_toString error))),
         {| this := this st2; world := world st2;
            trace := trace st2
                     ++ [console_error "Webhook processing error:" error] |})
    end.
Proof.
  intros Hverify.
  unfold handleWebhook, try_catch, stripe_webhooks_constructEvent,
    this_webhookSecret, this_stripe, emit, ask, throw, mbind, M_bind.
  cbn. rewrite Hverify. cbn.
  destruct (processWebhookEvent ev _) as [[r|error] st2]; reflexivity.
Qed.

(** C3. A verified event whose type tag is none of the five recognized
    ones makes [handleWebhook] return [null], without an exception; the
    only trace left is the check and the line about the unhandled type. *)
Theorem handleWebhook_unrecognized payload signature st ev w' :
  constructEvent (stripe (this st)) payload signature
    (webhookSecret (this st)) (world st) = (inr ev, w') →
  event_type ev ∉ recognized_types →
  handleWebhook payload signature st
  = (Return None,
     {| this := this st; world := w';
        trace := trace st
                 ++ [call_constructEvent (stripe (this st)) payload signature
                       (webhookSecret (this st));
                     console_log ("Unhandled event type: " +:+ event_type ev)
                       []] |}).
Proof.
  intros Hverify Hnot.
  rewrite (handleWebhook_verified _ _ _ _ _ Hverify).
  rewrite (processWebhookEvent_unrecognized _ _ Hnot).
  cbn. rewrite <- app_assoc. reflexivity.
Qed.

(** C4 (amended). A verified event whose type tag is one of the five
    recognized ones and whose [data.object] is there (neither [data] nor
    its [object] is [undefined] or [null]) is returned by [handleWebhook]
    as it was verified: the same record, so the same type tag, identifier
    and data. The handler leaves one [console.log] line; for
    [payment_intent.succeeded] it is the line of
    [handlePaymentIntentSucceeded]. Without a [data.object] the handler's
    [TypeError] is caught: [handleWebhook] reports it and throws a
    [WebhookProcessingError] that names it. *)
Theorem handleWebhook_recognized payload signature st ev w' :
  constructEvent (stripe (this st)) payload signature
    (webhookSecret (this st)) (world st) = (inr ev, w') →
  event_type ev ∈ recognized_types →
  if has_data_object ev then
    ∃ r label fields,
      handleWebhook payload signature st
      = (Return (Some r),
         {| this := this st; world := w';
            trace := trace st
                     ++ [call_constructEvent (stripe (this st)) payload
                           signature (webhookSecret (this st));
                         console_log label fields] |})
      ∧ r = ev
      ∧ event_type r = event_type ev
      ∧ event_id r = event_id ev
      ∧ event_data_object r = event_data_object ev
      ∧ (event_type ev = "payment_intent.succeeded" →
         label = "Payment Intent Succeeded:")
  else
    ∃ what p,
      handleWebhook payload signature st
      = (Throw (Custom (WebhookProcessingError
           ("Webhook processing error: "
              +:+ Error_toString (TypeError_reading what p)))),
         {| this := this st; world := w';
            trace := trace st
                     ++ [call_constructEvent (stripe (this st)) payload
                           signature (webhookSecret (this st));
                         console_error "Webhook processing error:"
                           (TypeError_reading what p)] |}).
Proof.
  intros Hverify Hin.
  rewrite (handleWebhook_verified _ _ _ _ _ Hverify).
  match goal with
  | |- context [processWebhookEvent ev ?s] =>
      pose proof (processWebhookEvent_recognized ev s Hin) as Hrun
  end.
  destruct (has_data_object ev) eqn:Hdata.
  - apply has_data_object_true in Hdata as (object & x & Hobj & Hid).
    rewrite Hobj, Hid in Hrun.
    destruct Hrun as (label & fields & -> & Hlabel).
    exists ev, label, fields.
    split; [cbn; rewrite <- app_assoc; reflexivity |].
    do 4 (split; [reflexivity |]).
    intros Htype. rewrite Htype in Hlabel.
    rewrite !elem_of_cons, elem_of_nil in Hlabel.
    destruct Hlabel as [H|[H|[H|[H|[H|[]]]]]]; congruence.
  - apply has_data_object_false in Hdata
      as (what & p & [Hobj | (object & Hobj & Hid)]).
    + rewrite Hobj in Hrun. rewrite Hrun.
      exists what, p. cbn. rewrite <- app_assoc. reflexivity.
    + rewrite Hobj, Hid in Hrun. rewrite Hrun.
      exists what, p. cbn. rewrite <- app_assoc. reflexivity.
Qed.

(** ** Truthiness *)

Lemma truthy_number_false (o : option number) :
  truthy truthy_number o = false ↔
  o = None ∨ o = Some NaN ∨ o = Some (Num 0).
Proof.
  destruct o as [[|z]|]; cbn.
  - intuition congruence.
  - rewrite negb_false_iff, Z.eqb_eq. intuition congruence.
  - intuition congruence.
Qed.

Lemma truthy_string_false (o : option string) :
  truthy truthy_string o = false ↔ o = None ∨ o = Some "".
Proof.
  destruct o as [s|]; cbn.
  - unfold truthy_string. rewrite negb_false_iff, String.eqb_eq.
    intuition congruence.
  - intuition congruence.
Qed.

Lemma truthy_string_true (o : option string) :
  truthy truthy_string o = true ↔ ∃ s, o = Some s ∧ s ≠ "".
Proof.
  destruct o as [s|]; cbn.
  - unfold truthy_string. rewrite negb_true_iff, String.eqb_neq. split.
    + intros Hs. exists s. auto.
    + intros (s' & [= ->] & Hs). exact Hs.
  - split; [discriminate | intros (s' & [=] & _)].
Qed.

Lemma missing_required_true input :
  missing_required input = true ↔
  truthy truthy_number (amount input) = false
  ∨ truthy truthy_string (currency input) = false
  ∨ truthy truthy_string (successUrl input) = false
  ∨ truthy truthy_string (cancelUrl input) = false.
Proof.
  unfold missing_required.
  rewrite !orb_true_iff, !negb_true_iff. tauto.
Qed.

Lemma missing_required_false input :
  missing_required input = false ↔
  truthy truthy_number (amount input) = true
  ∧ truthy truthy_string (currency input) = true
  ∧ truthy truthy_string (successUrl input) = true
  ∧ truthy truthy_string (cancelUrl input) = true.
Proof.
  unfold missing_required.
  rewrite !orb_false_iff, !negb_false_iff. tauto.
Qed.

(** ** Checkout session creation *)

(** The run on an input that fails the validation. *)
Lemma createCheckoutSession_rejected input st :
  missing_required input = true →
  createCheckoutSession input st
  = (Throw (Custom (CheckoutSessionCreationError
       "Failed to create checkout session.")),
     {| this := this st; world := world st;
        trace := trace st
                 ++ [console_error "Error creating checkout session:"
                       (Custom (MissingRequiredParameterError
                          "Amount, currency, successUrl, and cancelUrl are required."))] |}).
Proof.
  intros Hmiss. unfold createCheckoutSession, try_catch. rewrite Hmiss.
  reflexivity.
Qed.

(** The run on an input that passes it: one identifier is drawn, one
    request is sent, and the answer decides the outcome. *)
Lemma createCheckoutSession_accepted input st reference w1 :
  missing_required input = false →
  uuidv4 (world st) = (reference, w1) →
  createCheckoutSession input st
  = let params := session_params input reference in
    let sent := trace st ++ [call_uuidv4;
                             call_sessions_create (stripe (this st)) params] in
    match sessions_create (stripe (this st)) params w1 with
    | (inr session, w2) =>
        (Return {| result_url := session_url session;
                   result_sessionId := session_id session |},
         {| this := this st; world := w2; trace := sent |})
    | (inl error, w2) =>
        (Throw (Custom (CheckoutSessionCreationError
           "Failed to create checkout session.")),
         {| this := this st; world := w2;
            trace := sent ++ [console_error "Error creating checkout session:"
                                error] |})
    end.
Proof.
  intros Hmiss Huuid.
  unfold createCheckoutSession, try_catch. rewrite Hmiss.
  unfold call_uuid, stripe_checkout_sessions_create, this_stripe, emit, ask,
    mbind, M_bind.
  cbn. rewrite Huuid. cbn.
  destruct (sessions_create _ _ w1) as [[error|session] w2]; cbn;
    rewrite <- !app_assoc; reflexivity.
Qed.

(** C2. If any of [amount], [currency], [successUrl], [cancelUrl] is absent
    or falsy, [createCheckoutSession] fails, and the error that reaches the
    caller is a [CheckoutSessionCreationError] (code 400), not the
    [MissingRequiredParameterError] raised inside: that one is caught by
    the enclosing [try], logged, and replaced. The processor is not
    called. *)
Theorem createCheckoutSession_missing_field input st :
  truthy truthy_number (amount input) = false
  ∨ truthy truthy_string (currency input) = false
  ∨ truthy truthy_string (successUrl input) = false
  ∨ truthy truthy_string (cancelUrl input) = false →
  ∃ e st',
    createCheckoutSession input st = (Throw (Custom e), st')
    ∧ e = CheckoutSessionCreationError "Failed to create checkout session."
    ∧ name e = "CheckoutSessionCreationError"
    ∧ name e ≠ "MissingRequiredParameterError"
    ∧ code e = 400
    ∧ world st' = world st
    ∧ added st st'
      = [console_error "Error creating checkout session:"
           (Custom (MissingRequiredParameterError
              "Amount, currency, successUrl, and cancelUrl are required."))].
Proof.
  intros Hmiss. apply missing_required_true in Hmiss.
  do 2 eexists. split; [apply createCheckoutSession_rejected, Hmiss |].
  do 2 (split; [reflexivity |]).
  split; [discriminate |].
  do 2 (split; [reflexivity |]).
  apply added_app. reflexivity.
Qed.

(** [includes] finds a needle that some suffix starts with. *)
Lemma includes_app_r (needle a s : string) :
  includes needle s = true → includes needle (a +:+ s) = true.
Proof.
  intros Hs. induction a as [|c a IH]; cbn.
  - exact Hs.
  - change (String.prefix needle (String c (a +:+ s))
            || includes needle (a +:+ s) = true).
    rewrite IH. apply orb_true_r.
Qed.

(** C5 (amended). On every successful call, the request that went to the
    processor carries as [success_url] the caller's [successUrl] followed by
    [?session_id={CHECKOUT_SESSION_ID}], so that URL contains the
    placeholder; the [url] and [sessionId] handed back are the [url] and
    [id] of the session the processor answered with, unchanged. *)
Theorem createCheckoutSession_success input st r st' :
  createCheckoutSession input st = (Return r, st') →
  ∃ url reference w1 session,
    successUrl input = Some url
    ∧ uuidv4 (world st) = (reference, w1)
    ∧ sessions_create (stripe (this st)) (session_params input reference) w1
      = (inr session, world st')
    ∧ added st st'
      = [call_uuidv4;
         call_sessions_create (stripe (this st))
           (session_params input reference)]
    ∧ success_url (session_params input reference)
      = url +:+ "?session_id={CHECKOUT_SESSION_ID}"
    ∧ includes "{CHECKOUT_SESSION_ID}"
        (success_url (session_params input reference)) = true
    ∧ result_url r = session_url session
    ∧ result_sessionId r = session_id session.
Proof.
  intros Hrun.
  destruct (missing_required input) eqn:Hmiss.
  { rewrite createCheckoutSession_rejected in Hrun by assumption.
    discriminate Hrun. }
  destruct (uuidv4 (world st)) as [reference w1] eqn:Huuid.
  rewrite (createCheckoutSession_accepted _ _ _ _ Hmiss Huuid) in Hrun.
  cbn zeta in Hrun.
  destruct (sessions_create _ _ w1) as [[error|session] w2] eqn:Hcreate;
    [discriminate Hrun |].
  injection Hrun as <- <-.
  apply missing_required_false in Hmiss as (_ & _ & Hurl & _).
  apply truthy_string_true in Hurl as (url & Hurl & _).
  exists url, reference, w1, session.
  split; [exact Hurl |]. split; [reflexivity |]. split; [exact Hcreate |].
  split; [apply added_app; reflexivity |].
  unfold session_params; cbn. rewrite Hurl; cbn.
  split; [reflexivity |].
  split; [| split; reflexivity].
  apply includes_app_r. reflexivity.
Qed.

(** The rest element holds the extra properties, minus the four names. *)
Lemma otherLineItemData_lookup input (k : string) :
  k ∉ ["amount"; "currency"; "successUrl"; "cancelUrl"] →
  otherLineItemData input !! k = extra input !! k.
Proof.
  rewrite !not_elem_of_cons. intros (? & ? & ? & ? & _).
  unfold otherLineItemData. rewrite !lookup_delete_ne by congruence.
  reflexivity.
Qed.

Lemma line_item_extra input (k : string) (v : value) :
  k ∉ ["amount"; "currency"; "successUrl"; "cancelUrl"] →
  extra input !! k = Some v →
  line_item input !! k = Some v.
Proof.
  intros Hk Hv. unfold line_item, spread.
  apply lookup_union_Some_l. rewrite otherLineItemData_lookup; assumption.
Qed.

Lemma line_item_default input (k : string) :
  k ∉ ["amount"; "currency"; "successUrl"; "cancelUrl"] →
  extra input !! k = None →
  line_item input !! k
  = (<["price_data" := price_data input]>
       {["quantity" := VNumber (Num 1)]} : gmap string value) !! k.
Proof.
  intros Hk Hv. unfold line_item, spread.
  apply lookup_union_r. rewrite otherLineItemData_lookup; assumption.
Qed.

Lemma line_item_quantity input :
  extra input !! "quantity" = None →
  line_item input !! "quantity" = Some (VNumber (Num 1)).
Proof.
  intros Hq. rewrite line_item_default; [reflexivity | | exact Hq].
  rewrite !not_elem_of_cons. repeat split; try discriminate.
  apply not_elem_of_nil.
Qed.

Lemma line_item_price_data input (a : number) (c : string) :
  amount input = Some a →
  currency input = Some c →
  extra input !! "price_data" = None →
  line_item input !! "price_data"
  = Some (VObject
      (<["currency" := VString c]>
       (<["product_data" :=
            VObject {["name" := VString "Your Product Name"]}]>
        {["unit_amount" := VNumber a]}))).
Proof.
  intros Ea Ec Hp. rewrite line_item_default; [| | exact Hp].
  - unfold price_data. rewrite Ea, Ec. reflexivity.
  - rewrite !not_elem_of_cons. repeat split; try discriminate.
    apply not_elem_of_nil.
Qed.

(** What an accepted call adds to the trace. *)
Lemma createCheckoutSession_sends input st :
  missing_required input = false →
  ∃ tail,
    added st (createCheckoutSession input st).2
    = call_uuidv4
      :: call_sessions_create (stripe (this st))
           (session_params input (uuidv4 (world st)).1)
      :: tail
    ∧ List.filter is_processor_call tail = [].
Proof.
  intros Hmiss.
  destruct (uuidv4 (world st)) as [reference w1] eqn:Huuid.
  rewrite (createCheckoutSession_accepted _ _ _ _ Hmiss Huuid). cbn zeta.
  destruct (sessions_create _ _ w1) as [[error|session] w2]; cbn [snd].
  - exists [console_error "Error creating checkout session:" error].
    split; [| reflexivity]. apply added_app. trace_eq.
  - exists []. split; [| reflexivity]. apply added_app. trace_eq.
Qed.

(** C6 (amended). For every input that passes the validation, the call
    sends one session-creation request; it has the card payment method, the
    mode [payment] and one line item. The extra properties of the input are
    copied into that line item. Where they name neither [quantity] nor
    [price_data], the quantity is 1 and the price data hold the input's
    currency, the input's amount as unit amount and the product name
    [Your Product Name]. *)
Theorem createCheckoutSession_request input st :
  missing_required input = false →
  ∃ params li tail,
    added st (createCheckoutSession input st).2
    = call_uuidv4 :: call_sessions_create (stripe (this st)) params :: tail
    ∧ List.filter is_processor_call tail = []
    ∧ payment_method_types params = ["card"]
    ∧ mode params = "payment"
    ∧ line_items params = [li]
    ∧ (∀ k v, k ∉ ["amount"; "currency"; "successUrl"; "cancelUrl"] →
              extra input !! k = Some v → li !! k = Some v)
    ∧ (extra input !! "quantity" = None →
       li !! "quantity" = Some (VNumber (Num 1)))
    ∧ (extra input !! "price_data" = None →
       ∃ a c,
         amount input = Some a ∧ currency input = Some c
         ∧ li !! "price_data"
           = Some (VObject
               (<["currency" := VString c]>
                (<["product_data" :=
                     VObject {["name" := VString "Your Product Name"]}]>
                 {["unit_amount" := VNumber a]})))).
Proof.
  intros Hmiss.
  destruct (createCheckoutSession_sends input st Hmiss)
    as (tail & Hsent & Htail).
  exists (session_params input (uuidv4 (world st)).1), (line_item input), tail.
  split; [exact Hsent |]. split; [exact Htail |].
  do 3 (split; [reflexivity |]).
  split; [intros k v; apply line_item_extra |].
  split; [apply line_item_quantity |].
  intros Hp.
  apply missing_required_false in Hmiss as (Ha & Hc & _ & _).
  destruct (amount input) as [a|] eqn:Ea; [| discriminate Ha].
  apply truthy_string_true in Hc as (c & Ec & _).
  exists a, c. split; [reflexivity |]. split; [exact Ec |].
  apply line_item_price_data; assumption.
Qed.

(** C9 (amended). The validation tests truthiness only. An amount of 0 is
    rejected with a [CheckoutSessionCreationError] before any call to the
    processor. A strictly negative amount, with the other three fields
    non-empty, passes, and the request goes out; where the input has no
    extra property named [price_data], the unit amount of its line item is
    that negative amount. *)
Theorem createCheckoutSession_amount_sign input st :
  (amount input = Some (Num 0) →
   ∃ st',
     createCheckoutSession input st
     = (Throw (Custom (CheckoutSessionCreationError
          "Failed to create checkout session.")), st')
     ∧ List.filter is_processor_call (added st st') = [])
  ∧ (∀ z,
       z < 0 →
       amount input = Some (Num z) →
       truthy truthy_string (currency input) = true →
       truthy truthy_string (successUrl input) = true →
       truthy truthy_string (cancelUrl input) = true →
       missing_required input = false
       ∧ ∃ params li tail,
           added st (createCheckoutSession input st).2
           = call_uuidv4
             :: call_sessions_create (stripe (this st)) params :: tail
           ∧ line_items params = [li]
           ∧ (extra input !! "price_data" = None →
              ∃ pd, li !! "price_data" = Some (VObject pd)
                    ∧ pd !! "unit_amount" = Some (VNumber (Num z)))).
Proof.
  split.
  - intros Hzero. eexists. split.
    + apply createCheckoutSession_rejected.
      apply missing_required_true. left. rewrite Hzero. reflexivity.
    + erewrite added_app; [| reflexivity]. reflexivity.
  - intros z Hneg Hamount Hc Hs Hk.
    assert (Hmiss : missing_required input = false).
    { apply missing_required_false. rewrite Hamount. cbn.
      repeat split; try assumption.
      apply negb_true_iff, Z.eqb_neq. lia. }
    split; [exact Hmiss |].
    destruct (createCheckoutSession_sends input st Hmiss)
      as (tail & Hsent & _).
    apply truthy_string_true in Hc as (c & Ec & _).
    do 2 eexists. exists tail.
    split; [exact Hsent |]. split; [reflexivity |].
    intros Hextra. eexists. split.
    + apply (line_item_price_data _ _ _ Hamount Ec Hextra).
    + reflexivity.
Qed.

(** ** Checkout session retrieval *)

(** C7. With an absent or empty [sessionId], [getCheckoutSession] fails
    and the caller sees a [SessionRetrievalError]: the
    [MissingRequiredParameterError] raised inside is caught by the same
    [try], logged and replaced, and the processor is not called. With a
    non-empty [sessionId], the session that the processor's retrieval
    answers with is returned as it is. *)
Theorem getCheckoutSession_spec input st :
  (truthy truthy_string (sessionId input) = false →
   getCheckoutSession input st
   = (Throw (Custom (SessionRetrievalError "Failed to retrieve session.")),
      {| this := this st; world := world st;
         trace := trace st
                  ++ [console_error "Error retrieving session:"
                        (Custom (MissingRequiredParameterError
                           "Session ID is required."))] |}))
  ∧ (∀ session w',
       truthy truthy_string (sessionId input) = true →
       sessions_retrieve (stripe (this st)) (sessionId input) (world st)
       = (inr session, w') →
       getCheckoutSession input st
       = (Return session,
          {| this := this st; world := w';
             trace := trace st
                      ++ [call_sessions_retrieve (stripe (this st))
                            (sessionId input)] |})).
Proof.
  split.
  - intros Hid. unfold getCheckoutSession, try_catch. rewrite Hid.
    reflexivity.
  - intros session w' Hid Hretrieve.
    unfold getCheckoutSession, try_catch. rewrite Hid.
    unfold stripe_checkout_sessions_retrieve, this_stripe, emit, ask,
      mbind, M_bind.
    cbn. rewrite Hretrieve. reflexivity.
Qed.

(** ** The service instance is never written *)

Lemma preserves_ret {A} (a : A) : preserves_this (mret a : M World A).
Proof. intros st. reflexivity. Qed.

Lemma preserves_throw {A} (e : Thrown) : preserves_this (throw e : M World A).
Proof. intros st. reflexivity. Qed.

Lemma preserves_emit (e : Effect) : preserves_this (emit e : M World ()).
Proof. intros st. reflexivity. Qed.

Lemma preserves_this_stripe : preserves_this (this_stripe : M World Stripe).
Proof. intros st. reflexivity. Qed.

Lemma preserves_this_webhookSecret :
  preserves_this (this_webhookSecret : M World string).
Proof. intros st. reflexivity. Qed.

Lemma preserves_ask {A} (f : World → (Thrown + A) * World) :
  preserves_this (ask f).
Proof.
  intros st. unfold ask. destruct (f (world st)) as [[e|a] w]; reflexivity.
Qed.

Lemma preserves_read (v : value) (p : string) :
  preserves_this (read v p : M World value).
Proof. intros st. unfold read. destruct (member v p); reflexivity. Qed.

Lemma preserves_bind {A B} (m : M World A) (k : A → M World B) :
  preserves_this m → (∀ a, preserves_this (k a)) →
  preserves_this (m ≫= k).
Proof.
  intros Hm Hk st. unfold mbind, M_bind.
  specialize (Hm st). destruct (m st) as [[a|e] st1]; cbn in *.
  - rewrite Hk. exact Hm.
  - exact Hm.
Qed.

Lemma preserves_try_catch {A}
    (body : M World A) (handler : Thrown → M World A) :
  preserves_this body → (∀ e, preserves_this (handler e)) →
  preserves_this (try_catch body handler).
Proof.
  intros Hb Hh st. unfold try_catch.
  specialize (Hb st). destruct (body st) as [[a|e] st1]; cbn in *.
  - exact Hb.
  - rewrite Hh. exact Hb.
Qed.

(** Programs built from the primitives are handled piece by piece. *)
Ltac frame := repeat (intros; first
  [ apply preserves_try_catch | apply preserves_bind | apply preserves_ret
  | apply preserves_throw | apply preserves_emit | apply preserves_ask
  | apply preserves_read
  | apply preserves_this_stripe | apply preserves_this_webhookSecret ]).

Lemma preserves_createCheckoutSession input :
  preserves_this (createCheckoutSession input).
Proof.
  unfold createCheckoutSession, call_uuid, stripe_checkout_sessions_create.
  destruct (missing_required input); frame.
Qed.

Lemma preserves_getCheckoutSession input :
  preserves_this (getCheckoutSession input).
Proof.
  unfold getCheckoutSession, stripe_checkout_sessions_retrieve.
  destruct (negb _); frame.
Qed.

Lemma preserves_processWebhookEvent ev :
  preserves_this (processWebhookEvent ev : M World _).
Proof.
  unfold processWebhookEvent, handlePaymentIntentCreated,
    handlePaymentIntentSucceeded, handleChargeUpdated, handleChargeSucceeded,
    handleCheckoutSessionCompleted.
  repeat match goal with
         | |- context [if String.eqb ?a ?b then _ else _] =>
             destruct (String.eqb a b)
         end; frame.
Qed.

Lemma preserves_handleWebhook payload signature :
  preserves_this (handleWebhook payload signature).
Proof.
  unfold handleWebhook, stripe_webhooks_constructEvent.
  frame. apply preserves_processWebhookEvent.
Qed.

(** C10. Each of the three public operations hands back the service
    instance it was called on: the [stripe] client and the [webhookSecret]
    are the ones the constructor stored, whether the operation returns or
    throws. *)
Theorem operations_preserve_service st :
  (∀ input, this (createCheckoutSession input st).2 = this st)
  ∧ (∀ input, this (getCheckoutSession input st).2 = this st)
  ∧ (∀ payload signature,
       this (handleWebhook payload signature st).2 = this st)
  ∧ (∀ key secret service,
       StripeService_constructor key secret = inr service →
       apiKey (stripe service) = key ∧ webhookSecret service = secret).
Proof.
  split; [| split; [| split]].
  - intros input. apply preserves_createCheckoutSession.
  - intros input. apply preserves_getCheckoutSession.
  - intros payload signature. apply preserves_handleWebhook.
  - intros key secret service. unfold StripeService_constructor.
    destruct (negb (truthy_string key)); [discriminate |].
    destruct (negb (truthy_string secret)); [discriminate |].
    intros [= <-]. split; reflexivity.
Qed.

End Properties.

(** * The statements at work on the stand-ins *)

Section Examples.

#[local] Existing Instance test_processor.

Lemma handleWebhook_bad_signature_witness :
  constructEvent (stripe (this test_state)) (PayloadString "invoice.paid")
    "t=1,v1=forged" (webhookSecret (this test_state)) (world test_state)
  = (inl (Foreign "StripeSignatureVerificationError"
            "No signatures found matching the expected signature for payload."),
     0%nat)
  ∧ ∃ e st',
      handleWebhook (PayloadString "invoice.paid") "t=1,v1=forged" test_state
      = (Throw (Custom e), st')
      ∧ name e = "WebhookSignatureVerificationError"
      ∧ List.filter is_console_log (added test_state st') = [].
Proof.
  split; [reflexivity |].
  destruct (handleWebhook_bad_signature (processor:=test_processor)
              (PayloadString "invoice.paid")
              "t=1,v1=forged" test_state
              (Foreign "StripeSignatureVerificationError"
                 "No signatures found matching the expected signature for payload.")
              0%nat eq_refl)
    as (e & st' & Hrun & _ & Hname & _ & _ & Hlog).
  exists e, st'. auto.
Defined.

Lemma createCheckoutSession_missing_field_witness :
  truthy truthy_string
    (cancelUrl {| amount := Some (Num 500); currency := Some "usd";
                  successUrl := Some "https://x/ok"; cancelUrl := None;
                  extra := ∅ |}) = false
  ∧ ∃ e st',
      createCheckoutSession
        {| amount := Some (Num 500); currency := Some "usd";
           successUrl := Some "https://x/ok"; cancelUrl := None;
           extra := ∅ |} test_state
      = (Throw (Custom e), st')
      ∧ name e = "CheckoutSessionCreationError".
Proof.
  split; [reflexivity |].
  destruct (createCheckoutSession_missing_field (processor:=test_processor)
              {| amount := Some (Num 500); currency := Some "usd";
                 successUrl := Some "https://x/ok"; cancelUrl := None;
                 extra := ∅ |} test_state)
    as (e & st' & Hrun & _ & Hname & _).
  - right; right; right. reflexivity.
  - exists e, st'. auto.
Defined.

Lemma handleWebhook_unrecognized_witness :
  (event_type (test_event (PayloadString "invoice.paid")) ∉ recognized_types)
  ∧ fst (handleWebhook (PayloadString "invoice.paid") "t=1,v1=good" test_state)
    = Return None.
Proof.
  assert (Hnot : "invoice.paid" ∉ recognized_types).
  { unfold recognized_types. rewrite !not_elem_of_cons.
    repeat split; try discriminate. apply not_elem_of_nil. }
  split; [exact Hnot |].
  rewrite (handleWebhook_unrecognized (processor:=test_processor)
             (PayloadString "invoice.paid")
             "t=1,v1=good" test_state
             (test_event (PayloadString "invoice.paid")) 0%nat eq_refl Hnot).
  reflexivity.
Defined.

Lemma handleWebhook_recognized_witness :
  (event_type (test_event (PayloadString "payment_intent.succeeded"))
     ∈ recognized_types)
  ∧ has_data_object (test_event (PayloadString "payment_intent.succeeded"))
    = true
  ∧ ∃ r,
      fst (handleWebhook (PayloadString "payment_intent.succeeded")
             "t=1,v1=good" test_state) = Return (Some r)
      ∧ event_type r = "payment_intent.succeeded"
      ∧ event_id r = "evt_1".
Proof.
  assert (Hin : "payment_intent.succeeded" ∈ recognized_types).
  { unfold recognized_types. rewrite !elem_of_cons. auto. }
  split; [exact Hin |]. split; [reflexivity |].
  destruct (handleWebhook_recognized (processor:=test_processor)
              (PayloadString "payment_intent.succeeded")
              "t=1,v1=good" test_state
              (test_event (PayloadString "payment_intent.succeeded")) 0%nat
              eq_refl Hin)
    as (r & label & fields & Hrun & -> & _).
  eexists. rewrite Hrun. repeat split.
Defined.

(** C4, as stated, fails: a verified [charge.updated] event that came
    without [data] is not returned; the handler's read of [data.object]
    raises a [TypeError], and [handleWebhook] throws a
    [WebhookProcessingError]. *)
Lemma handleWebhook_recognized_counterexample :
  constructEvent (Processor:=dataless_processor) (stripe test_service)
    (PayloadString "charge.updated") "t=1,v1=good" "whsec_1" 0%nat
  = (inr (dataless_event "charge.updated"), 0%nat)
  ∧ (event_type (dataless_event "charge.updated") ∈ recognized_types)
  ∧ (handleWebhook (processor:=dataless_processor)
       (PayloadString "charge.updated") "t=1,v1=good" test_state).1
    = Throw (Custom (WebhookProcessingError
        "Webhook processing error: TypeError: Cannot read properties of undefined (reading 'object')"))
  ∧ (handleWebhook (processor:=dataless_processor)
       (PayloadString "charge.updated") "t=1,v1=good" test_state).1
    ≠ Return (Some (dataless_event "charge.updated")).
Proof.
  split; [reflexivity |]. split.
  - unfold recognized_types. rewrite !elem_of_cons. auto.
  - split; [reflexivity | discriminate].
Qed.

(** C5, as stated, fails: the call with amount 500, currency [usd] and the
    two URLs of the example succeeds, and the URL it returns is the one the
    processor answered with, which does not contain the placeholder. *)
Lemma createCheckoutSession_url_counterexample :
  ∃ r st',
    createCheckoutSession test_input test_state = (Return r, st')
    ∧ result_url r = Some "https://checkout.stripe.com/c/pay/cs_test_a1"
    ∧ from_option (includes "{CHECKOUT_SESSION_ID}") false (result_url r)
      = false.
Proof.
  do 2 eexists. split; [reflexivity |]. split; reflexivity.
Qed.

Lemma createCheckoutSession_success_witness :
  ∃ r st',
    createCheckoutSession test_input test_state = (Return r, st')
    ∧ ∃ reference,
        success_url (session_params test_input reference)
        = "https://x/ok?session_id={CHECKOUT_SESSION_ID}"
        ∧ includes "{CHECKOUT_SESSION_ID}"
            (success_url (session_params test_input reference)) = true
        ∧ result_sessionId r = "cs_test_a1".
Proof.
  do 2 eexists. split; [reflexivity |].
  assert (Hrun : createCheckoutSession test_input test_state
                 = (Return {| result_url := session_url test_session;
                              result_sessionId := "cs_test_a1" |},
                    (createCheckoutSession test_input test_state).2))
    by reflexivity.
  destruct (createCheckoutSession_success (processor:=test_processor)
              test_input test_state _ _ Hrun)
    as (url & reference & w1 & session & Hurl & _ & Hcreate & _ & Hs & Hi & _).
  injection Hurl as <-. exists reference.
  split; [exact Hs |]. split; [exact Hi | reflexivity].
Defined.

(** C6, as stated, fails: with an extra property [quantity: 5] the line
    item of the request has quantity 5, not 1. *)
Lemma createCheckoutSession_quantity_counterexample :
  missing_required bulk_input = false
  ∧ ∃ params li,
      trace (createCheckoutSession bulk_input test_state).2
      = [call_uuidv4; call_sessions_create (stripe test_service) params]
      ∧ line_items params = [li]
      ∧ li !! "quantity" = Some (VNumber (Num 5))
      ∧ li !! "quantity" ≠ Some (VNumber (Num 1)).
Proof.
  split; [reflexivity |].
  do 2 eexists. split; [reflexivity |]. split; [reflexivity |].
  split; [reflexivity | discriminate].
Qed.

Lemma createCheckoutSession_request_witness :
  missing_required test_input = false
  ∧ ∃ params li,
      trace (createCheckoutSession test_input test_state).2
      = [call_uuidv4; call_sessions_create (stripe test_service) params]
      ∧ line_items params = [li]
      ∧ li !! "quantity" = Some (VNumber (Num 1)).
Proof.
  split; [reflexivity |].
  destruct (createCheckoutSession_request (processor:=test_processor)
              test_input test_state eq_refl)
    as (params & li & tail & Hsent & _ & _ & _ & Hli & _ & Hq & _).
  exists params, li.
  injection Hsent as <- <-.
  split; [reflexivity |]. split; [exact Hli |]. apply Hq. reflexivity.
Defined.

(** C9, as stated, fails: with amount -500 and an extra property
    [price_data], the validation passes and the line item that goes out
    carries the extra [price_data], whose unit amount is 1. *)
Lemma createCheckoutSession_negative_counterexample :
  missing_required priced_input = false
  ∧ ∃ params li,
      trace (createCheckoutSession priced_input test_state).2
      = [call_uuidv4; call_sessions_create (stripe test_service) params]
      ∧ line_items params = [li]
      ∧ li !! "price_data"
        = Some (VObject {["unit_amount" := VNumber (Num 1)]})
      ∧ ({["unit_amount" := VNumber (Num 1)]} : gmap string value)
          !! "unit_amount" ≠ Some (VNumber (Num (-500))).
Proof.
  split; [reflexivity |].
  do 2 eexists. split; [reflexivity |]. split; [reflexivity |].
  split; [reflexivity | discriminate].
Qed.

Lemma createCheckoutSession_amount_sign_witness :
  -500 < 0
  ∧ amount refund_input = Some (Num (-500))
  ∧ extra refund_input !! "price_data" = None
  ∧ ∃ params li pd,
      trace (createCheckoutSession refund_input test_state).2
      = [call_uuidv4; call_sessions_create (stripe test_service) params]
      ∧ line_items params = [li]
      ∧ li !! "price_data" = Some (VObject pd)
      ∧ pd !! "unit_amount" = Some (VNumber (Num (-500))).
Proof.
  split; [lia |]. split; [reflexivity |]. split; [reflexivity |].
  destruct (createCheckoutSession_amount_sign (processor:=test_processor)
              refund_input test_state)
    as [_ Hneg].
  destruct (Hneg (-500) ltac:(lia) eq_refl eq_refl eq_refl eq_refl)
    as (_ & params & li & tail & Hsent & Hli & Hpd).
  destruct (Hpd eq_refl) as (pd & Hlookup & Hunit).
  exists params, li, pd.
  injection Hsent as <- <-.
  split; [reflexivity |]. split; [exact Hli |]. split; assumption.
Defined.

Lemma getCheckoutSession_spec_witness :
  truthy truthy_string (sessionId {| sessionId := Some "" |}) = false
  ∧ fst (getCheckoutSession {| sessionId := Some "" |} test_state)
    = Throw (Custom (SessionRetrievalError "Failed to retrieve session."))
  ∧ truthy truthy_string (sessionId {| sessionId := Some "cs_test_a1" |})
    = true
  ∧ fst (getCheckoutSession {| sessionId := Some "cs_test_a1" |} test_state)
    = Return test_session.
Proof.
  split; [reflexivity |]. split.
  - destruct (getCheckoutSession_spec (processor:=test_processor)
                {| sessionId := Some "" |} test_state)
      as [Hempty _].
    rewrite (Hempty eq_refl). reflexivity.
  - split; [reflexivity |].
    destruct (getCheckoutSession_spec (processor:=test_processor)
                {| sessionId := Some "cs_test_a1" |} test_state)
      as [_ Hfound].
    rewrite (Hfound test_session 1%nat eq_refl eq_refl). reflexivity.
Defined.

Lemma operations_preserve_service_witness :
  StripeService_constructor "sk_test_1" "whsec_1" = inr test_service
  ∧ this (handleWebhook (PayloadString "charge.updated") "t=1,v1=good"
            test_state).2 = test_service
  ∧ webhookSecret test_service = "whsec_1".
Proof.
  split; [reflexivity |].
  destruct (operations_preserve_service (processor:=test_processor) test_state)
    as (_ & _ & Hhook & Hnew).
  split; [apply Hhook |].
  apply (Hnew "sk_test_1" "whsec_1" test_service eq_refl).
Defined.

End Examples.

(** * Further properties of the service *)

(** ** Construction *)

(** X1. The constructor succeeds exactly when both secrets are non-empty.
    It then stores them and pins the API version and the retry count. Any
    failure is a [StripeInitializationError] with code 400, and the key is
    looked at first: with both secrets empty the message is the one about
    the key. *)
Theorem StripeService_constructor_cases (key secret : string) :
  match StripeService_constructor key secret with
  | inr service =>
      key ≠ "" ∧ secret ≠ ""
      ∧ service
        = {| stripe := {| apiKey := key; apiVersion := "2025-01-27.acacia";
                          maxNetworkRetries := 3 |};
             webhookSecret := secret |}
  | inl t =>
      (key = "" ∨ secret = "")
      ∧ ∃ e, t = Custom e
             ∧ name e = "StripeInitializationError"
             ∧ code e = 400
             ∧ message e = (if String.eqb key ""
                            then "Stripe secret key is required."
                            else "Stripe webhook secret is required.")
  end.
Proof.
  unfold StripeService_constructor, truthy_string.
  destruct (String.eqb key "") eqn:Ek; cbn.
  - apply String.eqb_eq in Ek. split; [left; exact Ek |].
    eexists. repeat split.
  - apply String.eqb_neq in Ek.
    destruct (String.eqb secret "") eqn:Es; cbn.
    + apply String.eqb_eq in Es. split; [right; exact Es |].
      eexists. repeat split.
    + apply String.eqb_neq in Es. auto.
Qed.

Section Further.

Context {World : Type} {processor : Processor World}.
Implicit Types (st : State World) (ev : StripeWebhookEvent).

(** ** Runs of the two session operations *)

Lemma getCheckoutSession_rejected input st :
  truthy truthy_string (sessionId input) = false →
  getCheckoutSession input st
  = (Throw (Custom (SessionRetrievalError "Failed to retrieve session.")),
     {| this := this st; world := world st;
        trace := trace st
                 ++ [console_error "Error retrieving session:"
                       (Custom (MissingRequiredParameterError
                          "Session ID is required."))] |}).
Proof.
  intros Hid. unfold getCheckoutSession, try_catch. rewrite Hid. reflexivity.
Qed.

Lemma getCheckoutSession_accepted input st :
  truthy truthy_string (sessionId input) = true →
  getCheckoutSession input st
  = let asked := trace st ++ [call_sessions_retrieve (stripe (this st))
                                (sessionId input)] in
    match sessions_retrieve (stripe (this st)) (sessionId input) (world st) with
    | (inr session, w) =>
        (Return session, {| this := this st; world := w; trace := asked |})
    | (inl error, w) =>
        (Throw (Custom (SessionRetrievalError "Failed to retrieve session.")),
         {| this := this st; world := w;
            trace := asked ++ [console_error "Error retrieving session:"
                                 error] |})
    end.
Proof.
  intros Hid. unfold getCheckoutSession, try_catch. rewrite Hid.
  unfold stripe_checkout_sessions_retrieve, this_stripe, emit, ask,
    mbind, M_bind.
  cbn. destruct (sessions_retrieve _ _ _) as [[error|session] w]; reflexivity.
Qed.

Lemma handleWebhook_unverified payload signature st err w' :
  constructEvent (stripe (this st)) payload signature
    (webhookSecret (this st)) (world st) = (inl err, w') →
  handleWebhook payload signature st
  = (Throw (Custom (WebhookSignatureVerificationError
       ("Webhook signature verification failed: " +:+ Error_toString err))),
     {| this := this st; world := w';
        trace := (trace st
                  ++ [call_constructEvent (stripe (this st)) payload signature
                        (webhookSecret (this st))])
                 ++ [console_error "Webhook signature verification failed:"
                       err] |}).
Proof.
  intros Hverify.
  unfold handleWebhook, try_catch, stripe_webhooks_constructEvent,
    this_webhookSecret, this_stripe, emit, ask, throw, mbind, M_bind.
  cbn. rewrite Hverify. reflexivity.
Qed.

(** X2. When the validation passes and the processor rejects the creation,
    whatever the rejection is, the caller gets the fixed
    [CheckoutSessionCreationError]; the cause is written to the console and
    is not part of the error. One identifier has been drawn and one request
    sent. *)
Theorem createCheckoutSession_upstream_failure
    input st reference w1 error w2 :
  missing_required input = false →
  uuidv4 (world st) = (reference, w1) →
  sessions_create (stripe (this st)) (session_params input reference) w1
  = (inl error, w2) →
  createCheckoutSession input st
  = (Throw (Custom (CheckoutSessionCreationError
       "Failed to create checkout session.")),
     {| this := this st; world := w2;
        trace := trace st
                 ++ [call_uuidv4;
                     call_sessions_create (stripe (this st))
                       (session_params input reference);
                     console_error "Error creating checkout session:"
                       error] |}).
Proof.
  intros Hmiss Huuid Hcreate.
  rewrite (createCheckoutSession_accepted _ _ _ _ Hmiss Huuid).
  cbn zeta. rewrite Hcreate. rewrite <- app_assoc. reflexivity.
Qed.

(** X3. When the session identifier is non-empty and the processor rejects
    the retrieval, the caller gets the fixed [SessionRetrievalError]; the
    cause is written to the console. *)
Theorem getCheckoutSession_upstream_failure input st error w' :
  truthy truthy_string (sessionId input) = true →
  sessions_retrieve (stripe (this st)) (sessionId input) (world st)
  = (inl error, w') →
  getCheckoutSession input st
  = (Throw (Custom (SessionRetrievalError "Failed to retrieve session.")),
     {| this := this st; world := w';
        trace := trace st
                 ++ [call_sessions_retrieve (stripe (this st))
                       (sessionId input);
                     console_error "Error retrieving session:" error] |}).
Proof.
  intros Hid Hretrieve.
  rewrite (getCheckoutSession_accepted _ _ Hid).
  cbn zeta. rewrite Hretrieve. rewrite <- app_assoc. reflexivity.
Qed.

(** X4. The two session operations do not tell the caller why they failed:
    whenever [createCheckoutSession] throws, the value thrown is the same
    [CheckoutSessionCreationError], and whenever [getCheckoutSession]
    throws, it is the same [SessionRetrievalError], for a rejected input
    and for a rejected request alike. Both carry code 400, so the 422 of
    the missing-parameter error never reaches the caller. *)
Theorem session_failures_fixed st :
  (∀ input t st',
     createCheckoutSession input st = (Throw t, st') →
     t = Custom (CheckoutSessionCreationError
                   "Failed to create checkout session.")
     ∧ code (CheckoutSessionCreationError
               "Failed to create checkout session.") = 400)
  ∧ (∀ input t st',
       getCheckoutSession input st = (Throw t, st') →
       t = Custom (SessionRetrievalError "Failed to retrieve session.")
       ∧ code (SessionRetrievalError "Failed to retrieve session.") = 400).
Proof.
  split.
  - intros input t st' Hrun. split; [| reflexivity].
    destruct (missing_required input) eqn:Hmiss.
    + rewrite createCheckoutSession_rejected in Hrun by assumption.
      congruence.
    + destruct (uuidv4 (world st)) as [reference w1] eqn:Huuid.
      rewrite (createCheckoutSession_accepted _ _ _ _ Hmiss Huuid) in Hrun.
      cbn zeta in Hrun.
      destruct (sessions_create _ _ w1) as [[error|session] w2]; congruence.
  - intros input t st' Hrun. split; [| reflexivity].
    destruct (truthy truthy_string (sessionId input)) eqn:Hid.
    + rewrite (getCheckoutSession_accepted _ _ Hid) in Hrun.
      cbn zeta in Hrun.
      destruct (sessions_retrieve _ _ _) as [[error|session] w]; congruence.
    + rewrite getCheckoutSession_rejected in Hrun by assumption.
      congruence.
Qed.

(** ** Webhook handling as a whole *)

(** X5. The outcome of [handleWebhook], case by case. A failed check gives
    a [WebhookSignatureVerificationError] naming the cause. After a passed
    check, a type without a case gives [null]; a type with a case gives the
    event when its [data.object] is there, and otherwise a
    [WebhookProcessingError] naming the [TypeError] of the handler. So the
    two errors are never confused: the first is thrown only when the check
    failed, the second only when it passed. In every case the world is
    left as the check left it. *)
Theorem handleWebhook_outcome payload signature st :
  let checked := constructEvent (stripe (this st)) payload signature
                   (webhookSecret (this st)) (world st) in
  let run := handleWebhook payload signature st in
  world run.2 = checked.2
  ∧ match checked.1 with
    | inl err =>
        run.1 = Throw (Custom (WebhookSignatureVerificationError
                  ("Webhook signature verification failed: "
                     +:+ Error_toString err)))
    | inr ev =>
        if bool_decide (event_type ev ∈ recognized_types) then
          if has_data_object ev then run.1 = Return (Some ev)
          else ∃ what p,
                 run.1 = Throw (Custom (WebhookProcessingError
                           ("Webhook processing error: "
                              +:+ Error_toString (TypeError_reading what p))))
        else run.1 = Return None
    end
  ∧ ∀ e, run.1 = Throw (Custom e) →
         code e = 400
         ∧ (name e = "WebhookSignatureVerificationError"
            ∧ (∃ err, checked.1 = inl err)
            ∨ name e = "WebhookProcessingError"
              ∧ (∃ ev, checked.1 = inr ev ∧ has_data_object ev = false)).
Proof.
  cbn zeta.
  destruct (constructEvent _ _ _ _ _) as [[err|ev] w'] eqn:Hcheck; cbn [fst snd].
  - rewrite (handleWebhook_unverified _ _ _ _ _ Hcheck). cbn [fst snd].
    split; [reflexivity |]. split; [reflexivity |].
    intros e [= <-]. split; [reflexivity |]. left. eauto.
  - rewrite (handleWebhook_verified _ _ _ _ _ Hcheck).
    case_bool_decide as Ht.
    + match goal with
      | |- context [processWebhookEvent ev ?s] =>
          pose proof (processWebhookEvent_recognized ev s Ht) as Hrun
      end.
      destruct (has_data_object ev) eqn:Hdata.
      * apply has_data_object_true in Hdata as (object & x & Hobj & Hid).
        rewrite Hobj, Hid in Hrun. destruct Hrun as (l & f & -> & _).
        cbn [fst snd world]. split; [reflexivity |]. split; [reflexivity |].
        intros e [=].
      * destruct (has_data_object_false _ Hdata)
          as (what & p & [Hobj | (object & Hobj & Hid)]);
          [ rewrite Hobj in Hrun | rewrite Hobj, Hid in Hrun ];
          rewrite Hrun; cbn [fst snd world];
          (split; [reflexivity |]); (split; [eauto |]);
          intros e [= <-]; (split; [reflexivity |]); right; eauto.
    + rewrite (processWebhookEvent_unrecognized _ _ Ht).
      cbn [fst snd world]. split; [reflexivity |]. split; [reflexivity |].
      intros e [=].
Qed.

(** ** What the operations leave in the trace *)

Lemma added_here st (t : StripeService) (w : World) (l : list Effect) :
  added st {| this := t; world := w; trace := trace st ++ l |} = l.
Proof. apply added_app. reflexivity. Qed.

Lemma createCheckoutSession_added input st :
  added st (createCheckoutSession input st).2
  = if missing_required input then
      [console_error "Error creating checkout session:"
         (Custom (MissingRequiredParameterError
            "Amount, currency, successUrl, and cancelUrl are required."))]
    else
      [call_uuidv4;
       call_sessions_create (stripe (this st))
         (session_params input (uuidv4 (world st)).1)]
      ++ match (sessions_create (stripe (this st))
                  (session_params input (uuidv4 (world st)).1)
                  (uuidv4 (world st)).2).1 with
         | inl error =>
             [console_error "Error creating checkout session:" error]
         | inr _ => []
         end.
Proof.
  destruct (missing_required input) eqn:Hmiss.
  - rewrite createCheckoutSession_rejected by assumption. apply added_here.
  - destruct (uuidv4 (world st)) as [reference w1] eqn:Huuid.
    rewrite (createCheckoutSession_accepted _ _ _ _ Hmiss Huuid).
    cbn zeta. cbn [fst snd].
    destruct (sessions_create _ _ w1) as [[error|session] w2]; cbn [fst snd].
    + rewrite <- app_assoc. apply added_here.
    + apply added_here.
Qed.

Lemma getCheckoutSession_added input st :
  added st (getCheckoutSession input st).2
  = if truthy truthy_string (sessionId input) then
      call_sessions_retrieve (stripe (this st)) (sessionId input)
      :: match (sessions_retrieve (stripe (this st)) (sessionId input)
                  (world st)).1 with
         | inl error => [console_error "Error retrieving session:" error]
         | inr _ => []
         end
    else
      [console_error "Error retrieving session:"
         (Custom (MissingRequiredParameterError "Session ID is required."))].
Proof.
  destruct (truthy truthy_string (sessionId input)) eqn:Hid.
  - rewrite (getCheckoutSession_accepted _ _ Hid). cbn zeta.
    destruct (sessions_retrieve _ _ _) as [[error|session] w]; cbn [fst snd].
    + rewrite <- app_assoc. apply added_here.
    + apply added_here.
  - rewrite getCheckoutSession_rejected by assumption. apply added_here.
Qed.

Lemma handleWebhook_added payload signature st :
  ∃ line,
    added st (handleWebhook payload signature st).2
    = [call_constructEvent (stripe (this st)) payload signature
         (webhookSecret (this st)); line]
    ∧ is_call line = false
    ∧ is_console_error line
      = (if (handleWebhook payload signature st).1 is Throw _
         then true else false).
Proof.
  destruct (constructEvent (stripe (this st)) payload signature
              (webhookSecret (this st)) (world st))
    as [[err|ev] w'] eqn:Hcheck.
  - rewrite (handleWebhook_unverified _ _ _ _ _ Hcheck). cbn [fst snd].
    eexists. split; [rewrite <- app_assoc; apply added_here |].
    split; reflexivity.
  - rewrite (handleWebhook_verified _ _ _ _ _ Hcheck).
    destruct (decide (event_type ev ∈ recognized_types)) as [Ht|Ht].
    + match goal with
      | |- context [processWebhookEvent ev ?s] =>
          pose proof (processWebhookEvent_recognized ev s Ht) as Hrun
      end.
      destruct (event_data_object ev) as [error|object].
      * rewrite Hrun. cbn [fst snd trace]. eexists.
        split; [rewrite <- app_assoc; apply added_here |]. split; reflexivity.
      * destruct (member object "id") as [error|x].
        -- rewrite Hrun. cbn [fst snd trace]. eexists.
           split; [rewrite <- app_assoc; apply added_here |].
           split; reflexivity.
        -- destruct Hrun as (l & f & -> & _). cbn [fst snd trace]. eexists.
           split; [rewrite <- app_assoc; apply added_here |].
           split; reflexivity.
    + rewrite (processWebhookEvent_unrecognized _ _ Ht).
      cbn [fst snd trace]. eexists.
      split; [rewrite <- app_assoc; apply added_here |]. split; reflexivity.
Qed.

(** X6. Each public operation writes one [console.error] line when it
    throws and none when it returns. The two session operations never
    write a [console.log] line. *)
Theorem console_error_iff_throw st :
  (∀ input,
     let run := createCheckoutSession input st in
     List.filter is_console_error (added st run.2) ≠ []
     ↔ ∃ t, run.1 = Throw t)
  ∧ (∀ input,
       let run := getCheckoutSession input st in
       List.filter is_console_error (added st run.2) ≠ []
       ↔ ∃ t, run.1 = Throw t)
  ∧ (∀ payload signature,
       let run := handleWebhook payload signature st in
       List.filter is_console_error (added st run.2) ≠ []
       ↔ ∃ t, run.1 = Throw t)
  ∧ (∀ input,
       length (List.filter is_console_error
                 (added st (createCheckoutSession input st).2)) ≤ 1
       ∧ List.filter is_console_log
           (added st (createCheckoutSession input st).2) = [])%nat
  ∧ (∀ input,
       length (List.filter is_console_error
                 (added st (getCheckoutSession input st).2)) ≤ 1
       ∧ List.filter is_console_log
           (added st (getCheckoutSession input st).2) = [])%nat.
Proof.
  assert (Hcreate : ∀ input,
    ∃ l, added st (createCheckoutSession input st).2 = l
         ∧ (List.filter is_console_error l ≠ []
            ↔ ∃ t, (createCheckoutSession input st).1 = Throw t)
         ∧ (length (List.filter is_console_error l) ≤ 1)%nat
         ∧ List.filter is_console_log l = []).
  { intros input. eexists. split; [reflexivity |].
    rewrite createCheckoutSession_added.
    destruct (missing_required input) eqn:Hmiss.
    - rewrite createCheckoutSession_rejected by assumption. cbn.
      repeat split; eauto; try lia; discriminate.
    - destruct (uuidv4 (world st)) as [reference w1] eqn:Huuid.
      rewrite (createCheckoutSession_accepted _ _ _ _ Hmiss Huuid).
      cbn zeta. cbn [fst snd].
      destruct (sessions_create _ _ w1) as [[error|session] w2]; cbn;
        repeat split; eauto; try lia; try discriminate;
        try (intros Hne; destruct Hne; reflexivity); try (intros [t [=]]). }
  assert (Hget : ∀ input,
    ∃ l, added st (getCheckoutSession input st).2 = l
         ∧ (List.filter is_console_error l ≠ []
            ↔ ∃ t, (getCheckoutSession input st).1 = Throw t)
         ∧ (length (List.filter is_console_error l) ≤ 1)%nat
         ∧ List.filter is_console_log l = []).
  { intros input. eexists. split; [reflexivity |].
    rewrite getCheckoutSession_added.
    destruct (truthy truthy_string (sessionId input)) eqn:Hid.
    - rewrite (getCheckoutSession_accepted _ _ Hid). cbn zeta.
      destruct (sessions_retrieve _ _ _) as [[error|session] w]; cbn;
        repeat split; eauto; try lia; try discriminate;
        try (intros Hne; destruct Hne; reflexivity); try (intros [t [=]]).
    - rewrite getCheckoutSession_rejected by assumption. cbn.
      repeat split; eauto; try lia; discriminate. }
  split; [| split; [| split; [| split]]].
  - intros input. destruct (Hcreate input) as (l & <- & Hiff & _). exact Hiff.
  - intros input. destruct (Hget input) as (l & <- & Hiff & _). exact Hiff.
  - intros payload signature. cbn zeta.
    destruct (handleWebhook_added payload signature st)
      as (line & -> & Hcall & Herr).
    cbn. destruct line; try discriminate Hcall; cbn in *.
    + destruct (handleWebhook payload signature st).1; [| discriminate Herr].
      split; [intros Hne; destruct Hne; reflexivity | intros [t [=]]].
    + destruct (handleWebhook payload signature st).1; [discriminate Herr |].
      split; [eauto | discriminate].
  - intros input. destruct (Hcreate input) as (l & <- & _ & Hlen & Hlog).
    split; assumption.
  - intros input. destruct (Hget input) as (l & <- & _ & Hlen & Hlog).
    split; assumption.
Qed.


(** X8. On a service that the constructor built, the signature check is
    made with the webhook secret given to the constructor, which is not
    empty, and with the client of the given key. *)
Theorem handleWebhook_checks_with_given_secret
    key secret service payload signature st :
  StripeService_constructor key secret = inr service →
  this st = service →
  key ≠ "" ∧ secret ≠ ""
  ∧ ∃ line,
      added st (handleWebhook payload signature st).2
      = [call_constructEvent
           {| apiKey := key; apiVersion := "2025-01-27.acacia";
              maxNetworkRetries := 3 |}
           payload signature secret;
         line]
      ∧ is_call line = false.
Proof.
  intros Hnew Hthis.
  unfold StripeService_constructor, truthy_string in Hnew.
  destruct (String.eqb key "") eqn:Ek; [discriminate Hnew |].
  destruct (String.eqb secret "") eqn:Es; [discriminate Hnew |].
  cbn in Hnew. injection Hnew as <-.
  apply String.eqb_neq in Ek, Es.
  split; [exact Ek |]. split; [exact Es |].
  destruct (handleWebhook_added payload signature st)
    as (line & Hadded & Hcall & _).
  exists line. rewrite Hadded, Hthis. split; [reflexivity | exact Hcall].
Qed.

(** ** Dispatch *)

(** X9. The handler is chosen by the type tag, one handler per tag: two
    recognized events whose dispatch writes the same label have the same
    type. In particular the first case of the [switch] never falls through
    to the handler of the second. *)
Theorem dispatch_injective ev1 ev2 st1 st2 label fields1 fields2 :
  event_type ev1 ∈ recognized_types →
  event_type ev2 ∈ recognized_types →
  added st1 (processWebhookEvent ev1 st1).2 = [console_log label fields1] →
  added st2 (processWebhookEvent ev2 st2).2 = [console_log label fields2] →
  event_type ev1 = event_type ev2.
Proof.
  assert (Hlabel : ∀ ev st l f,
    event_type ev ∈ recognized_types →
    added st (processWebhookEvent ev st).2 = [console_log l f] →
    (event_type ev, l)
    ∈ [("payment_intent.created", "Payment Intent Created:");
       ("payment_intent.succeeded", "Payment Intent Succeeded:");
       ("charge.updated", "Charge Updated:");
       ("charge.succeeded", "Charge Succeeded:");
       ("checkout.session.completed", "Checkout Session Completed:")]).
  { intros ev st l f Hin Hadded.
    pose proof (processWebhookEvent_recognized ev st Hin) as Hrun.
    destruct (event_data_object ev) as [error|object].
    - rewrite Hrun in Hadded. cbn [snd] in Hadded.
      rewrite added_same in Hadded. discriminate Hadded.
    - destruct (member object "id") as [error|x].
      + rewrite Hrun in Hadded. cbn [snd] in Hadded.
        rewrite added_same in Hadded. discriminate Hadded.
      + destruct Hrun as (l0 & f0 & Hrun & Hl0).
        rewrite Hrun in Hadded. cbn [snd] in Hadded.
        rewrite added_here in Hadded. injection Hadded as <- _.
        exact Hl0. }
  intros Hin1 Hin2 Hrun1 Hrun2.
  pose proof (Hlabel _ _ _ _ Hin1 Hrun1) as H1.
  pose proof (Hlabel _ _ _ _ Hin2 Hrun2) as H2.
  rewrite !elem_of_cons, elem_of_nil in H1, H2.
  destruct H1 as [H1|[H1|[H1|[H1|[H1|[]]]]]];
    destruct H2 as [H2|[H2|[H2|[H2|[H2|[]]]]]];
    congruence.
Qed.

(** X10. A handler reads the properties it logs from [event.data.object]
    and does not require them: on an event whose object is [{}],
    every logged value is [undefined], nothing is thrown, and a recognized
    event is still returned. *)
Theorem handlers_tolerate_missing_properties ev st :
  event_data_object ev = inr (VObject ∅) →
  ∃ label fields,
    processWebhookEvent ev st
    = (Return (if bool_decide (event_type ev ∈ recognized_types)
               then Some ev else None),
       {| this := this st; world := world st;
          trace := trace st ++ [console_log label fields] |})
    ∧ Forall (λ field, field.2 = VUndefined) fields.
Proof.
  intros Hobj. unfold event_data_object in Hobj.
  case_bool_decide as Ht.
  - rewrite eqb_recognized in Ht. unfold processWebhookEvent.
    repeat match goal with
           | |- context [if String.eqb ?a ?b then _ else _] =>
               destruct (String.eqb a b);
               [ unfold handlePaymentIntentCreated,
                   handlePaymentIntentSucceeded, handleChargeUpdated,
                   handleChargeSucceeded, handleCheckoutSessionCompleted,
                   read, emit, mbind, M_bind;
                 rewrite Hobj; cbn;
                 do 2 eexists; split; [reflexivity |];
                 repeat constructor
               | ]
           end.
    discriminate Ht.
  - rewrite (processWebhookEvent_unrecognized _ _ Ht).
    do 2 eexists. split; [reflexivity | constructor].
Qed.

(** ** The two session operations together *)

(** X11. Retrieving the session that was just created. The identifier that
    [createCheckoutSession] returns is not checked for emptiness: if the
    processor answered with an empty one, the retrieval is rejected before
    any call; otherwise one retrieval goes out, on the same client, for
    exactly the identifier the processor gave. *)
Theorem retrieve_created_session input st r st' :
  createCheckoutSession input st = (Return r, st') →
  let again := getCheckoutSession {| sessionId := Some (result_sessionId r) |}
                 st' in
  ∃ session,
    (sessions_create (stripe (this st))
       (session_params input (uuidv4 (world st)).1)
       (uuidv4 (world st)).2).1 = inr session
    ∧ result_sessionId r = session_id session
    ∧ if String.eqb (session_id session) "" then
        again.1 = Throw (Custom (SessionRetrievalError
                                   "Failed to retrieve session."))
        ∧ List.filter is_call (added st' again.2) = []
      else
        List.filter is_call (added st' again.2)
        = [call_sessions_retrieve (stripe (this st))
             (Some (session_id session))].
Proof.
  intros Hrun. cbn zeta.
  destruct (missing_required input) eqn:Hmiss.
  { rewrite createCheckoutSession_rejected in Hrun by assumption.
    discriminate Hrun. }
  destruct (uuidv4 (world st)) as [reference w1] eqn:Huuid.
  rewrite (createCheckoutSession_accepted _ _ _ _ Hmiss Huuid) in Hrun.
  cbn zeta in Hrun. cbn [fst snd].
  destruct (sessions_create _ _ w1) as [[error|session] w2];
    [discriminate Hrun |].
  injection Hrun as <- <-. cbn [fst snd result_sessionId this].
  exists session. split; [reflexivity |]. split; [reflexivity |].
  rewrite getCheckoutSession_added. cbn [sessionId truthy from_option this].
  unfold truthy_string.
  destruct (String.eqb (session_id session) "") eqn:Eid; cbn [negb].
  - split; [| reflexivity].
    rewrite getCheckoutSession_rejected; [reflexivity |].
    cbn. unfold truthy_string. rewrite Eid. reflexivity.
  - destruct (sessions_retrieve _ _ _).1; reflexivity.
Qed.

(** X12. The service keeps nothing between calls: if the answer of the
    processor's retrieval for this identifier does not depend on the state
    of the world, a second [getCheckoutSession] with the same input has the
    outcome of the first. *)
Theorem getCheckoutSession_repeatable input st :
  (∀ w, (sessions_retrieve (stripe (this st)) (sessionId input) w).1
        = (sessions_retrieve (stripe (this st)) (sessionId input)
             (world st)).1) →
  (getCheckoutSession input (getCheckoutSession input st).2).1
  = (getCheckoutSession input st).1.
Proof.
  intros Hsame.
  pose proof (preserves_getCheckoutSession input st) as Hthis.
  destruct (truthy truthy_string (sessionId input)) eqn:Hid.
  - remember (getCheckoutSession input st) as run eqn:Hrun.
    rewrite (getCheckoutSession_accepted _ run.2 Hid). cbn zeta.
    rewrite Hthis. specialize (Hsame (world run.2)).
    rewrite (getCheckoutSession_accepted _ st Hid) in Hrun. cbn zeta in Hrun.
    destruct (sessions_retrieve _ _ (world run.2)) as [a1 w1].
    destruct (sessions_retrieve _ _ (world st)) as [a2 w2].
    cbn [fst] in Hsame. subst a2 run.
    destruct a1; reflexivity.
  - rewrite !getCheckoutSession_rejected by assumption. reflexivity.
Qed.

(** ** The line item *)

(** X13. The properties of the line item that is sent are [price_data],
    [quantity] and the extra properties of the input, nothing more; the
    four names taken by the destructuring pattern never reach it. *)
Theorem line_item_properties input (reference : string) :
  dom <$> line_items (session_params input reference)
  = [ ({["price_data"; "quantity"]} : gset string)
      ∪ (dom (extra input)
         ∖ {["amount"; "currency"; "successUrl"; "cancelUrl"]}) ].
Proof.
  cbn. f_equal. unfold line_item, spread, otherLineItemData.
  rewrite dom_union_L, !dom_delete_L, dom_insert_L, dom_singleton_L.
  apply set_eq. intros k.
  rewrite !elem_of_union, !elem_of_difference, !elem_of_union,
    !elem_of_singleton.
  tauto.
Qed.

End Further.

(** ** Telling the error classes apart *)

(** X14. The name of an error tells its class: errors of two different
    classes never have the same name, whatever their messages. Printed, an
    error reads as its class name, followed by its message when there is
    one. *)
Theorem error_class_by_name (k k' : ErrorClass) (msg msg' : string) :
  name (construct k msg) = name (construct k' msg') →
  k = k'
  ∧ Error_toString (Custom (construct k msg))
    = (if String.eqb msg "" then name (construct k msg)
       else name (construct k msg) +:+ ": " +:+ msg).
Proof.
  intros Hname. split.
  - destruct k, k'; cbn in Hname; congruence.
  - destruct k; cbn; destruct (String.eqb msg ""); reflexivity.
Qed.

(** * The further statements at work on the stand-ins *)

Section FurtherExamples.

Lemma createCheckoutSession_upstream_failure_witness :
  missing_required test_input = false
  ∧ (createCheckoutSession (processor:=failing_processor) test_input
       test_state).1
    = Throw (Custom (CheckoutSessionCreationError
               "Failed to create checkout session."))
  ∧ world (createCheckoutSession (processor:=failing_processor) test_input
             test_state).2 = 2%nat.
Proof.
  split; [reflexivity |].
  rewrite (createCheckoutSession_upstream_failure
             (processor:=failing_processor) test_input test_state
             "9b2e4c1a-7d3f-4e5a-8b6c-0123456789ab" 1%nat
             (Foreign "StripeConnectionError"
                "An error occurred with our connection to Stripe.")
             2%nat eq_refl eq_refl eq_refl).
  split; reflexivity.
Defined.

Lemma getCheckoutSession_upstream_failure_witness :
  truthy truthy_string (sessionId {| sessionId := Some "cs_test_zz" |}) = true
  ∧ (getCheckoutSession (processor:=test_processor)
       {| sessionId := Some "cs_test_zz" |} test_state).1
    = Throw (Custom (SessionRetrievalError "Failed to retrieve session.")).
Proof.
  split; [reflexivity |].
  rewrite (getCheckoutSession_upstream_failure (processor:=test_processor)
             {| sessionId := Some "cs_test_zz" |} test_state
             (Foreign "StripeInvalidRequestError" "No such checkout.session")
             1%nat eq_refl eq_refl).
  reflexivity.
Defined.

Lemma session_failures_fixed_witness :
  ∃ t st',
    createCheckoutSession (processor:=failing_processor) test_input test_state
    = (Throw t, st')
    ∧ t = Custom (CheckoutSessionCreationError
                    "Failed to create checkout session.").
Proof.
  assert (Hrun :
    createCheckoutSession (processor:=failing_processor) test_input test_state
    = (Throw (Custom (CheckoutSessionCreationError
                        "Failed to create checkout session.")),
       (createCheckoutSession (processor:=failing_processor) test_input
          test_state).2)) by reflexivity.
  do 2 eexists. split; [exact Hrun |].
  destruct (session_failures_fixed (processor:=failing_processor) test_state)
    as [Hcreate _].
  exact (proj1 (Hcreate _ _ _ Hrun)).
Defined.

Lemma handleWebhook_checks_with_given_secret_witness :
  StripeService_constructor "sk_test_1" "whsec_1" = inr test_service
  ∧ this test_state = test_service
  ∧ ∃ line,
      added test_state
        (handleWebhook (processor:=test_processor)
           (PayloadBuffer [123; 125]) "t=1,v1=good" test_state).2
      = [call_constructEvent (stripe test_service) (PayloadBuffer [123; 125])
           "t=1,v1=good" "whsec_1";
         line].
Proof.
  split; [reflexivity |]. split; [reflexivity |].
  destruct (handleWebhook_checks_with_given_secret
              (processor:=test_processor) "sk_test_1" "whsec_1" test_service
              (PayloadBuffer [123; 125]) "t=1,v1=good" test_state
              eq_refl eq_refl)
    as (_ & _ & line & Hadded & _).
  exists line. exact Hadded.
Defined.

Lemma dispatch_injective_witness :
  (event_type (test_event (PayloadString "charge.updated")) ∈ recognized_types)
  ∧ (event_type (bare_event "charge.updated") ∈ recognized_types)
  ∧ added test_state
      (processWebhookEvent (test_event (PayloadString "charge.updated"))
         test_state).2
    = [console_log "Charge Updated:"
         [("id", VString "pi_1"); ("amount", VNumber (Num 500));
          ("paid", VUndefined); ("status", VUndefined)]]
  ∧ added test_state
      (processWebhookEvent (bare_event "charge.updated") test_state).2
    = [console_log "Charge Updated:"
         [("id", VUndefined); ("amount", VUndefined);
          ("paid", VUndefined); ("status", VUndefined)]]
  ∧ event_type (test_event (PayloadString "charge.updated"))
    = event_type (bare_event "charge.updated").
Proof.
  assert (Hin : "charge.updated" ∈ recognized_types).
  { unfold recognized_types. rewrite !elem_of_cons. auto. }
  assert (H1 : added test_state
      (processWebhookEvent (test_event (PayloadString "charge.updated"))
         test_state).2
    = [console_log "Charge Updated:"
         [("id", VString "pi_1"); ("amount", VNumber (Num 500));
          ("paid", VUndefined); ("status", VUndefined)]]) by reflexivity.
  assert (H2 : added test_state
      (processWebhookEvent (bare_event "charge.updated") test_state).2
    = [console_log "Charge Updated:"
         [("id", VUndefined); ("amount", VUndefined);
          ("paid", VUndefined); ("status", VUndefined)]]) by reflexivity.
  split; [exact Hin |]. split; [exact Hin |].
  split; [exact H1 |]. split; [exact H2 |].
  exact (dispatch_injective
           (test_event (PayloadString "charge.updated"))
           (bare_event "charge.updated") test_state test_state
           _ _ _ Hin Hin H1 H2).
Defined.

Lemma handlers_tolerate_missing_properties_witness :
  event_data_object (bare_event "checkout.session.completed")
  = inr (VObject ∅)
  ∧ ∃ label fields,
      processWebhookEvent (bare_event "checkout.session.completed") test_state
      = (Return (Some (bare_event "checkout.session.completed")),
         {| this := test_service; world := 0%nat;
            trace := [console_log label fields] |})
      ∧ Forall (λ field, field.2 = VUndefined) fields.
Proof.
  split; [reflexivity |].
  destruct (handlers_tolerate_missing_properties
              (bare_event "checkout.session.completed") test_state eq_refl)
    as (label & fields & Hrun & Hall).
  exists label, fields. split; [| exact Hall].
  rewrite Hrun. reflexivity.
Defined.

Lemma retrieve_created_session_witness :
  ∃ r st',
    createCheckoutSession (processor:=test_processor) test_input test_state
    = (Return r, st')
    ∧ List.filter is_call
        (added st'
           (getCheckoutSession (processor:=test_processor)
              {| sessionId := Some (result_sessionId r) |} st').2)
      = [call_sessions_retrieve (stripe test_service) (Some "cs_test_a1")].
Proof.
  assert (Hrun :
    createCheckoutSession (processor:=test_processor) test_input test_state
    = (Return {| result_url := session_url test_session;
                 result_sessionId := "cs_test_a1" |},
       (createCheckoutSession (processor:=test_processor) test_input
          test_state).2)) by reflexivity.
  do 2 eexists. split; [exact Hrun |].
  destruct (retrieve_created_session (processor:=test_processor)
              test_input test_state _ _ Hrun)
    as (session & Hcreate & _ & Hcalls).
  injection Hcreate as <-. exact Hcalls.
Defined.

Lemma getCheckoutSession_repeatable_witness :
  (∀ w : nat,
     (sessions_retrieve (Processor:=test_processor) (stripe test_service)
        (Some "cs_test_a1") w).1
     = (sessions_retrieve (Processor:=test_processor) (stripe test_service)
          (Some "cs_test_a1") 0%nat).1)
  ∧ (getCheckoutSession (processor:=test_processor)
       {| sessionId := Some "cs_test_a1" |}
       (getCheckoutSession (processor:=test_processor)
          {| sessionId := Some "cs_test_a1" |} test_state).2).1
    = Return test_session.
Proof.
  assert (Hsame : ∀ w : nat,
     (sessions_retrieve (Processor:=test_processor) (stripe test_service)
        (Some "cs_test_a1") w).1
     = (sessions_retrieve (Processor:=test_processor) (stripe test_service)
          (Some "cs_test_a1") 0%nat).1) by (intros w; reflexivity).
  split; [exact Hsame |].
  rewrite (getCheckoutSession_repeatable (processor:=test_processor)
             {| sessionId := Some "cs_test_a1" |} test_state Hsame).
  reflexivity.
Defined.

Lemma error_class_by_name_witness :
  name (construct SignatureError "bad signature")
  = name (construct SignatureError "stale timestamp")
  ∧ Error_toString (Custom (construct SignatureError "bad signature"))
    = "WebhookSignatureVerificationError: bad signature".
Proof.
  split; [reflexivity |].
  destruct (error_class_by_name SignatureError SignatureError
              "bad signature" "stale timestamp" eq_refl) as [_ Hprint].
  rewrite Hprint. reflexivity.
Defined.

End FurtherExamples.
